(** * TacitImage: load/unload lifecycle, pixel queries and the thumbnail pipeline

    A shallow embedding of [Src/TacitImage.cpp] (class [TacitImage]) together
    with the parts of the Tacent library it calls ([tPicture], [tTexture],
    [tCubemap], [tSystem]).  C++ [int] values are integers of [Z]; signed
    overflow is undefined in the source and is not modelled.  Objects are
    records, member functions are functions from the object to the updated
    object, and everything the program obtains from outside (file system,
    decoders, clock, OpenGL) is read from a [World] record. *)

From Stdlib Require Import ZArith Lia Bool.
From Stdlib Require Import Floats.SpecFloat.
From stdpp Require Import base numbers list strings pretty gmap.

Local Open Scope Z_scope.

(** ** Pixels *)

(** Modelled from the spec: [tPixel] (alias [tColouri]), the fixed-size colour
    pixel of four 8-bit channels. *)
Record tPixel := mkPixel { R : Z; G : Z; B : Z; A : Z }.

Definition tPixel_eqb (p q : tPixel) : bool :=
  (R p =? R q) && (G p =? G q) && (B p =? B q) && (A p =? A q).

(** Modelled from the spec: [tPixel::transparent], the fully transparent fill. *)
Definition transparent : tPixel := mkPixel 0 0 0 0.

(** Modelled from the spec: [tColouri::black], what the pixel query reports
    when there is nothing to read. *)
Definition black : tPixel := mkPixel 0 0 0 255.

(** ** Pixel buffers: [tImage::tPicture] *)

Module tPicture.

(** Modelled from the spec: a pixel buffer is a width, a height and a
    row-major array of pixels; row 0 is the bottom of the image.
    [SrcFileBitDepth] is the member that [TacitImage::Load] reads. *)
Record t := mk {
  Width : Z;
  Height : Z;
  Pixels : list tPixel;
  SrcFileBitDepth : Z
}.

(** Modelled from the spec: the default-constructed / cleared picture, the
    zero-area state the data model calls invalid. *)
Definition Clear : t := mk 0 0 [] 32.

(** Modelled from the spec: [tPicture::IsValid], zero area means invalid. *)
Definition IsValid (p : t) : bool := (0 <? Width p) && (0 <? Height p).

Definition GetWidth (p : t) : Z := Width p.
Definition GetHeight (p : t) : Z := Height p.
Definition GetNumPixels (p : t) : Z := Width p * Height p.

(** Modelled from the spec: [tPicture::GetPixel], the entry at [y*Width + x]
    of the row-major array.  Outside the array the source has undefined
    behaviour; the model then answers [black]. *)
Definition GetPixel (p : t) (x y : Z) : tPixel :=
  default black (Pixels p !! Z.to_nat (y * Width p + x)).

(** Modelled from the spec: [tPicture::SetPixel], overwrite of the entry at
    [y*Width + x]; outside the array (undefined in the source) nothing is
    written. *)
Definition SetPixel (p : t) (x y : Z) (c : tPixel) : t :=
  mk (Width p) (Height p) (<[Z.to_nat (y * Width p + x) := c]> (Pixels p))
     (SrcFileBitDepth p).

(** Modelled from the spec: [tPicture::Set(width, height, colour)],
    construct(width, height, fill). *)
Definition Set_ (width height : Z) (fill : tPixel) : t :=
  mk width height (replicate (Z.to_nat (width * height)) fill) 32.

(** Modelled from the spec: the constructor
    [tPicture(width, height, pixelBuffer, copyPixels)], which adopts a buffer. *)
Definition ofBuffer (width height : Z) (buf : list tPixel) : t :=
  mk width height buf 32.

(** Modelled from the spec: [tPicture::Set(const tPicture&)], a copy of a
    valid source and the cleared state otherwise. *)
Definition Copy (src : t) : t := if IsValid src then src else Clear.

(** Modelled from the spec: [tPicture::IsOpaque], true iff every pixel's
    alpha is fully opaque. *)
Definition IsOpaque (p : t) : bool := forallb (fun c => A c =? 255) (Pixels p).

(** Build a [w] by [h] buffer whose entry at [y*w + x] is [f x y]. *)
Definition tabulate (w h : Z) (f : Z -> Z -> tPixel) : list tPixel :=
  map (fun k => f (k `mod` w) (k `div` w)) (seqZ 0 (w * h)).

(** Modelled from the spec: [tPicture::Resample], the contents replaced by a
    filtered resize to the target size; [kernel] is the interpolation kernel
    of the chosen filter.  An invalid picture is left alone (the operation
    fails); so is, in this model, a request for a target without area. *)
Definition Resample (kernel : t -> Z -> Z -> Z -> Z -> tPixel)
    (p : t) (width height : Z) : t :=
  if negb (IsValid p) || (width <=? 0) || (height <=? 0) then p
  else mk width height (tabulate width height (kernel p width height))
          (SrcFileBitDepth p).

(** [tMath::tInRange(v, 0, n-1)]. *)
Definition inRange (v n : Z) : bool := (0 <=? v) && (v <? n).

(** Modelled from the spec: [tPicture::Crop], reframing around the image
    centre; new area is filled with the fill colour (transparent), what falls
    outside the new frame is cut off.  An invalid picture is left alone; so
    is, in this model, a request for a frame without area. *)
Definition Crop (p : t) (newW newH : Z) : t :=
  if negb (IsValid p) || (newW <=? 0) || (newH <=? 0) then p
  else
    let originX := Width p `quot` 2 - newW `quot` 2 in
    let originY := Height p `quot` 2 - newH `quot` 2 in
    mk newW newH
       (tabulate newW newH
          (fun x y =>
             if inRange (originX + x) (Width p) && inRange (originY + y) (Height p)
             then GetPixel p (originX + x) (originY + y)
             else transparent))
       (SrcFileBitDepth p).

End tPicture.

(** ** Compressed layers and containers: [tLayer], [tTexture], [tCubemap] *)

(** The pixel-format tags, as [GetGLFormatInfo] names them. *)
Inductive tPixelFormat :=
  | Invalid
  | R8G8B8 | R8G8B8A8 | B8G8R8 | B8G8R8A8
  | BC1_DXT1BA | BC1_DXT1 | BC2_DXT3 | BC3_DXT5
  | G3B5A1R5G2 | G4B4A4R4 | G3B5R5G3.

(** Modelled from the spec: [tIsNormalFormat], true for the uncompressed
    RGB, RGBA, BGR and BGRA variants. *)
Definition tIsNormalFormat (f : tPixelFormat) : bool :=
  match f with
  | R8G8B8 | R8G8B8A8 | B8G8R8 | B8G8R8A8 => true
  | _ => false
  end.

(** Modelled from the spec: [tGetBytesPerPixel], the bytes one pixel takes in
    an uncompressed or packed 16-bit format. *)
Definition tGetBytesPerPixel (f : tPixelFormat) : Z :=
  match f with
  | R8G8B8 | B8G8R8 => 3
  | R8G8B8A8 | B8G8R8A8 => 4
  | G3B5A1R5G2 | G4B4A4R4 | G3B5R5G3 => 2
  | _ => 0
  end.

Module tLayer.

(** Modelled from the spec: a compressed layer is a pixel-format tag, a width,
    a height and a raw payload.  The payload is represented by [Readback], the
    RGBA image that [glGetTexImage] returns once the layer has been uploaded. *)
Record t := mk {
  PixelFormat : tPixelFormat;
  Width : Z;
  Height : Z;
  Readback : list tPixel
}.

End tLayer.

Module tTexture.

(** Modelled from the spec: a single-surface container, the ordered sequence
    of layers of its mip chain, with the format-level opacity marker. *)
Record t := mk {
  Layers : list tLayer.t;
  Opaque : bool
}.

Definition Clear : t := mk [] true.

(** Modelled from the spec: a valid single surface has a non-empty chain. *)
Definition IsValid (tex : t) : bool :=
  match Layers tex with [] => false | _ => true end.

Definition GetWidth (tex : t) : Z :=
  match Layers tex with [] => 0 | l :: _ => tLayer.Width l end.
Definition GetHeight (tex : t) : Z :=
  match Layers tex with [] => 0 | l :: _ => tLayer.Height l end.
Definition GetPixelFormat (tex : t) : tPixelFormat :=
  match Layers tex with [] => Invalid | l :: _ => tLayer.PixelFormat l end.
Definition GetLayers (tex : t) : list tLayer.t := Layers tex.

(** Modelled from the spec: [tTexture::IsOpaque], the format-level opacity
    marker of a single-surface container. *)
Definition IsOpaque (tex : t) : bool := Opaque tex.

End tTexture.

Module tCubemap.

Inductive tSide := PosX | NegX | PosY | NegY | PosZ | NegZ.

(** Modelled from the spec: a cube container, six single-surface containers,
    one per face. *)
Record t := mk {
  SidePosX : tTexture.t; SideNegX : tTexture.t;
  SidePosY : tTexture.t; SideNegY : tTexture.t;
  SidePosZ : tTexture.t; SideNegZ : tTexture.t
}.

Definition Clear : t :=
  mk tTexture.Clear tTexture.Clear tTexture.Clear
     tTexture.Clear tTexture.Clear tTexture.Clear.

Definition GetSide (c : t) (s : tSide) : tTexture.t :=
  match s with
  | PosX => SidePosX c | NegX => SideNegX c
  | PosY => SidePosY c | NegY => SideNegY c
  | PosZ => SidePosZ c | NegZ => SideNegZ c
  end.

Definition allSides : list tSide := [PosX; NegX; PosY; NegY; PosZ; NegZ].

(** Modelled from the spec: a cube container is valid when all six faces
    are populated. *)
Definition IsValid (c : t) : bool :=
  forallb (fun s => tTexture.IsValid (GetSide c s)) allSides.

(** Modelled from the spec: [tCubemap::AllSidesOpaque], the all-faces-opaque
    check. *)
Definition AllSidesOpaque (c : t) : bool :=
  forallb (fun s => tTexture.IsOpaque (GetSide c s)) allSides.

End tCubemap.

(** ** The outside world: [tSystem], the decoders, the clock and OpenGL *)

(** Modelled from the spec: [tSystem::tFileType], the format tag resolved from
    the file name.  The code tells [Unknown] and [DDS] apart; every other tag
    is an ordinary raster format. *)
Inductive tFileType := Unknown | TGA | BMP | PNG | GIF | JPG | TIFF | DDS.

Definition tFileType_eqb (a b : tFileType) : bool :=
  match a, b with
  | Unknown, Unknown | TGA, TGA | BMP, BMP | PNG, PNG | GIF, GIF
  | JPG, JPG | TIFF, TIFF | DDS, DDS => true
  | _, _ => false
  end.

(** Modelled from the spec: [tSystem::tFileInfo], size, creation time and
    modification time of a file. *)
Record tFileInfo := mkFileInfo {
  FileSize : Z;
  CreationTime : Z;
  ModificationTime : Z
}.

(** Outcome of a decoder call [obj.Load(filename)]: the populated object, an
    explicit failure, or a thrown [tError]; after the last two the object is
    in its cleared state. *)
Inductive LoadResult (T : Type) :=
  | Loaded (v : T)
  | Failed
  | Threw.
Arguments Loaded {T} v.
Arguments Failed {T}.
Arguments Threw {T}.

Record World := mkWorld {
  tGetFileType : string -> tFileType;
  (** [tGetFileInfo(info, file)]: the result and the contents of [info]. *)
  tGetFileInfo : string -> bool * tFileInfo;
  tGetFileSize : string -> Z;
  tGetTime : Z;
  tGetNumCores : Z;
  tCubemap_Load : string -> LoadResult tCubemap.t;
  tTexture_Load : string -> LoadResult tTexture.t;
  tPicture_Load : string -> LoadResult tPicture.t;
  (** The name [glGenTextures] hands out; 0 when it cannot. *)
  glGenTextures : Z;
  (** Whether [glfwCreateWindow] yields an offscreen context. *)
  glfwCreateWindow : bool
}.

(** ** Single-precision arithmetic

    C++ [float] is IEEE-754 binary32: 24 bits of precision, exponents below
    128, round to nearest even. *)

Module F32.

Definition prec : Z := 24.
Definition emax : Z := 128.

Definition float := spec_float.

(** [float(n)] for an [int] n. *)
Definition of_int (n : Z) : float := binary_normalize prec emax n 0 false.

Definition div (x y : float) : float := SFdiv prec emax x y.
Definition mul (x y : float) : float := SFmul prec emax x y.
Definition add (x y : float) : float := SFadd prec emax x y.
Definition ltb (x y : float) : bool := SFltb x y.

(** The constant [0.5f]. *)
Definition half : float := S754_finite false 8388608 (-24).

(** The integer part of a finite value rounded towards minus infinity. *)
Definition floorZ (x : float) : option Z :=
  match x with
  | S754_zero _ => Some 0
  | S754_finite s m e =>
      let v := if s then Z.neg m else Z.pos m in
      Some (if 0 <=? e then v * 2 ^ e else v `div` 2 ^ (- e))
  | _ => None
  end.

(** Modelled from the spec: [tMath::tFloor], the floor of a single-precision
    value; infinities and NaN are returned as they are. *)
Definition tFloor (x : float) : float :=
  match floorZ x with
  | Some z => of_int z
  | None => x
  end.

(** Modelled from the spec: [tMath::tRound], the rounded size, computed as
    [tFloor(v + 0.5f)]. *)
Definition tRound (v : float) : float := tFloor (add v half).

(** [int(x)]: truncation towards zero.  Outside the range of [int], and for
    NaN, the conversion is undefined in C++; the model answers [INT_MIN], the
    x86 result. *)
Definition to_int (x : float) : Z :=
  match x with
  | S754_zero _ => 0
  | S754_finite s m e =>
      let v := if s then Z.neg m else Z.pos m in
      let z := if 0 <=? e then v * 2 ^ e else v `quot` 2 ^ (- e) in
      if (- 2 ^ 31 <=? z) && (z <? 2 ^ 31) then z else - 2 ^ 31
  | _ => - 2 ^ 31
  end.

End F32.

(** ** Library functions taken as parameters

    Functions of the Tacent library that [TacitImage.cpp] calls and whose
    code is not among the sources. *)
Record Tacent := mkTacent {
  (** [tHashData256(data, length, iv)] over the bytes [data]. *)
  tHashData256 : list Z -> Z -> Z;
  (** [tHashString256(string, iv)]. *)
  tHashString256 : string -> Z -> Z;
  (** The default initial vector of [tHashData256]. *)
  HashIV256 : Z;
  (** The rendering of the digest by [tsPrintf]'s [%032|128X]. *)
  tsPrintf_X : Z -> string;
  (** The kernel of [tPicture::tFilter::Bilinear]: source, target width and
      height, target coordinates. *)
  Bilinear : tPicture.t -> Z -> Z -> Z -> Z -> tPixel;
  (** [tPicture::Save(tChunkWriter&)]: the bytes of the chunk. *)
  tPicture_Save : tPicture.t -> list Z;
  (** [tPicture::Load(const tChunk&)] on the first chunk of a file. *)
  tPicture_LoadChunk : list Z -> tPicture.t
}.

(** ** The image aggregate: [class TacitImage] *)

Module TacitImage.

Record ImgInfo := mkInfo {
  Width : Z;
  Height : Z;
  PixelFormat : tPixelFormat;
  SrcFileBitDepth : Z;
  Opaque : bool;
  FileSizeBytes : Z;
  MemSizeBytes : Z;
  Mipmaps : Z
}.

(** State of the [std::thread] member. *)
Inductive tThread := NoThread | Executing | Returned.

Record t := mk {
  Filename : string;
  Filetype : tFileType;
  FileModTime : Z;
  FileSizeB : Z;
  LoadedTime : Z;
  Info : ImgInfo;
  DDSCubemap : tCubemap.t;
  DDSTexture2D : tTexture.t;
  Pictures : list tPicture.t;
  AltPicture : tPicture.t;
  AltPictureEnabled : bool;
  TexIDPrimary : Z;
  TexIDAlt : Z;
  ThumbnailRequested : bool;
  ThumbnailThreadRunning : bool;
  (** [std::atomic_flag]: [true] when set. *)
  ThumbnailThreadFlag : bool;
  ThumbnailThread : tThread;
  ThumbnailPicture : tPicture.t;
  TexIDThumbnail : Z
}.

Definition set_identity (fn : string) (ft : tFileType) (mt sz : Z) (i : t) : t :=
  mk fn ft mt sz (LoadedTime i) (Info i) (DDSCubemap i)
     (DDSTexture2D i) (Pictures i) (AltPicture i) (AltPictureEnabled i)
     (TexIDPrimary i) (TexIDAlt i) (ThumbnailRequested i)
     (ThumbnailThreadRunning i) (ThumbnailThreadFlag i) (ThumbnailThread i)
     (ThumbnailPicture i) (TexIDThumbnail i).

Definition set_LoadedTime (v : Z) (i : t) : t :=
  mk (Filename i) (Filetype i) (FileModTime i) (FileSizeB i) v (Info i) (DDSCubemap i)
     (DDSTexture2D i) (Pictures i) (AltPicture i) (AltPictureEnabled i)
     (TexIDPrimary i) (TexIDAlt i) (ThumbnailRequested i)
     (ThumbnailThreadRunning i) (ThumbnailThreadFlag i) (ThumbnailThread i)
     (ThumbnailPicture i) (TexIDThumbnail i).

Definition set_Info (v : ImgInfo) (i : t) : t :=
  mk (Filename i) (Filetype i) (FileModTime i) (FileSizeB i) (LoadedTime i) v (DDSCubemap i)
     (DDSTexture2D i) (Pictures i) (AltPicture i) (AltPictureEnabled i)
     (TexIDPrimary i) (TexIDAlt i) (ThumbnailRequested i)
     (ThumbnailThreadRunning i) (ThumbnailThreadFlag i) (ThumbnailThread i)
     (ThumbnailPicture i) (TexIDThumbnail i).

Definition set_DDSCubemap (v : tCubemap.t) (i : t) : t :=
  mk (Filename i) (Filetype i) (FileModTime i) (FileSizeB i) (LoadedTime i) (Info i) v
     (DDSTexture2D i) (Pictures i) (AltPicture i) (AltPictureEnabled i)
     (TexIDPrimary i) (TexIDAlt i) (ThumbnailRequested i)
     (ThumbnailThreadRunning i) (ThumbnailThreadFlag i) (ThumbnailThread i)
     (ThumbnailPicture i) (TexIDThumbnail i).

Definition set_DDSTexture2D (v : tTexture.t) (i : t) : t :=
  mk (Filename i) (Filetype i) (FileModTime i) (FileSizeB i) (LoadedTime i) (Info i)
     (DDSCubemap i) v (Pictures i) (AltPicture i) (AltPictureEnabled i)
     (TexIDPrimary i) (TexIDAlt i) (ThumbnailRequested i)
     (ThumbnailThreadRunning i) (ThumbnailThreadFlag i) (ThumbnailThread i)
     (ThumbnailPicture i) (TexIDThumbnail i).

Definition set_Pictures (v : list tPicture.t) (i : t) : t :=
  mk (Filename i) (Filetype i) (FileModTime i) (FileSizeB i) (LoadedTime i) (Info i)
     (DDSCubemap i) (DDSTexture2D i) v (AltPicture i) (AltPictureEnabled i)
     (TexIDPrimary i) (TexIDAlt i) (ThumbnailRequested i)
     (ThumbnailThreadRunning i) (ThumbnailThreadFlag i) (ThumbnailThread i)
     (ThumbnailPicture i) (TexIDThumbnail i).

Definition set_AltPicture (v : tPicture.t) (i : t) : t :=
  mk (Filename i) (Filetype i) (FileModTime i) (FileSizeB i) (LoadedTime i) (Info i)
     (DDSCubemap i) (DDSTexture2D i) (Pictures i) v (AltPictureEnabled i)
     (TexIDPrimary i) (TexIDAlt i) (ThumbnailRequested i)
     (ThumbnailThreadRunning i) (ThumbnailThreadFlag i) (ThumbnailThread i)
     (ThumbnailPicture i) (TexIDThumbnail i).

Definition set_AltPictureEnabled (v : bool) (i : t) : t :=
  mk (Filename i) (Filetype i) (FileModTime i) (FileSizeB i) (LoadedTime i) (Info i)
     (DDSCubemap i) (DDSTexture2D i) (Pictures i) (AltPicture i) v
     (TexIDPrimary i) (TexIDAlt i) (ThumbnailRequested i)
     (ThumbnailThreadRunning i) (ThumbnailThreadFlag i) (ThumbnailThread i)
     (ThumbnailPicture i) (TexIDThumbnail i).

Definition set_TexIDs (primary alt : Z) (i : t) : t :=
  mk (Filename i) (Filetype i) (FileModTime i) (FileSizeB i) (LoadedTime i) (Info i)
     (DDSCubemap i) (DDSTexture2D i) (Pictures i) (AltPicture i) (AltPictureEnabled i)
     primary alt (ThumbnailRequested i)
     (ThumbnailThreadRunning i) (ThumbnailThreadFlag i) (ThumbnailThread i)
     (ThumbnailPicture i) (TexIDThumbnail i).

(** The four members that [RequestThumbnail], [BindThumbnail] and the worker's
    last action write. *)
Definition set_thumbState (requested running flag : bool) (th : tThread) (i : t) : t :=
  mk (Filename i) (Filetype i) (FileModTime i) (FileSizeB i) (LoadedTime i) (Info i)
     (DDSCubemap i) (DDSTexture2D i) (Pictures i) (AltPicture i) (AltPictureEnabled i)
     (TexIDPrimary i) (TexIDAlt i) requested running flag th
     (ThumbnailPicture i) (TexIDThumbnail i).

Definition set_ThumbnailPicture (v : tPicture.t) (i : t) : t :=
  mk (Filename i) (Filetype i) (FileModTime i) (FileSizeB i) (LoadedTime i) (Info i)
     (DDSCubemap i) (DDSTexture2D i) (Pictures i) (AltPicture i) (AltPictureEnabled i)
     (TexIDPrimary i) (TexIDAlt i) (ThumbnailRequested i)
     (ThumbnailThreadRunning i) (ThumbnailThreadFlag i) (ThumbnailThread i)
     v (TexIDThumbnail i).

Definition set_TexIDThumbnail (v : Z) (i : t) : t :=
  mk (Filename i) (Filetype i) (FileModTime i) (FileSizeB i) (LoadedTime i) (Info i)
     (DDSCubemap i) (DDSTexture2D i) (Pictures i) (AltPicture i) (AltPictureEnabled i)
     (TexIDPrimary i) (TexIDAlt i) (ThumbnailRequested i)
     (ThumbnailThreadRunning i) (ThumbnailThreadFlag i) (ThumbnailThread i)
     (ThumbnailPicture i) v.

(** Modelled from the spec: the unpopulated info record of an aggregate that
    was constructed empty. *)
Definition InfoInit : ImgInfo := mkInfo 0 0 Invalid 0 true 0 0 0.

(** [TacitImage::TacitImage()].  Modelled from the spec: the members the
    constructor does not name start in the empty state (the class declaration
    with their initialisers is not among the sources): no pictures, no alt
    buffer, cleared containers, zero handles, no thumbnail request. *)
Definition Create : t :=
  mk "" Unknown 0 0 (-1) InfoInit tCubemap.Clear tTexture.Clear []
     tPicture.Clear false 0 0 false false false NoThread tPicture.Clear 0.

(** [TacitImage::TacitImage(const tString& filename)]. *)
Definition CreateFrom (w : World) (filename : string) : t :=
  let info := tGetFileInfo w filename in
  set_identity filename (tGetFileType w filename)
    (if fst info then ModificationTime (snd info) else 0)
    (if fst info then FileSize (snd info) else 0) Create.

(** *** Queries *)

(** [Pictures.First()]: the head of the list, or the null pointer. *)
Definition First (i : t) : option tPicture.t := head (Pictures i).

Definition GetWidth (i : t) : Z :=
  if tPicture.IsValid (AltPicture i) && AltPictureEnabled i
  then tPicture.GetWidth (AltPicture i)
  else match First i with
       | Some picture =>
           if tPicture.IsValid picture then tPicture.GetWidth picture else 0
       | None => 0
       end.

Definition GetHeight (i : t) : Z :=
  if tPicture.IsValid (AltPicture i) && AltPictureEnabled i
  then tPicture.GetHeight (AltPicture i)
  else match First i with
       | Some picture =>
           if tPicture.IsValid picture then tPicture.GetHeight picture else 0
       | None => 0
       end.

Definition GetPixel (i : t) (x y : Z) : tPixel :=
  if tPicture.IsValid (AltPicture i) && AltPictureEnabled i
  then tPicture.GetPixel (AltPicture i) x y
  else match First i with
       | Some picture =>
           if tPicture.IsValid picture then tPicture.GetPixel picture x y else black
       | None => black
       end.

Definition IsOpaque (i : t) : bool :=
  if tCubemap.IsValid (DDSCubemap i) then tCubemap.AllSidesOpaque (DDSCubemap i)
  else if tTexture.IsValid (DDSTexture2D i) then tTexture.IsOpaque (DDSTexture2D i)
  else match First i with
       | Some picture =>
           if tPicture.IsValid picture then tPicture.IsOpaque picture else true
       | None => true
       end.

(** [sizeof(tPixel)] is 4. *)
Definition GetMemSizeBytes (i : t) : Z :=
  let numBytes :=
    foldl (fun n pic => n + tPicture.GetNumPixels pic * 4) 0 (Pictures i) in
  numBytes +
    (if tPicture.IsValid (AltPicture i)
     then tPicture.GetNumPixels (AltPicture i) * 4 else 0).

(** Modelled from the spec: [GetPrimaryPicture], an accessor of the class
    declaration (not among the sources): mip level 0 of the primary chain, the
    null pointer when the chain is empty. *)
Definition GetPrimaryPicture (i : t) : option tPicture.t := First i.

(** *** Hardware decode bridge *)

(** [tiClampMin(v, 1)] applied to [dim >> level]. *)
Definition mipDim (dim : Z) (level : nat) : Z := Z.max (dim ≫ Z.of_nat level) 1.

Definition ConvertTexture2DToPicture (wld : World) (i : t) : bool * t :=
  if negb (tTexture.IsValid (DDSTexture2D i)) || negb (Z.of_nat (length (Pictures i)) <=? 0)
  then (false, i)
  else
    let w := tTexture.GetWidth (DDSTexture2D i) in
    let h := tTexture.GetHeight (DDSTexture2D i) in
    if glGenTextures wld =? 0 then (false, i)
    else
      let layers := tTexture.GetLayers (DDSTexture2D i) in
      (true,
       set_Pictures
         (Pictures i ++
            imap (fun level layer =>
                    tPicture.ofBuffer (mipDim w level) (mipDim h level)
                      (tLayer.Readback layer)) layers) i).

(** The front (+Z) face comes first. *)
Definition sideOrder : list tCubemap.tSide :=
  [tCubemap.PosZ; tCubemap.NegZ; tCubemap.PosX; tCubemap.NegX; tCubemap.PosY; tCubemap.NegY].

(** Level 0 of one face, read back ([tex->GetLayers().First()]). *)
Definition readFace (tex : tTexture.t) : list tPixel :=
  match head (tTexture.GetLayers tex) with
  | Some layer => tLayer.Readback layer
  | None => []
  end.

Definition ConvertCubemapToPicture (i : t) : bool * t :=
  if negb (tCubemap.IsValid (DDSCubemap i)) || negb (Z.of_nat (length (Pictures i)) <=? 0)
  then (false, i)
  else
    let tex := tCubemap.GetSide (DDSCubemap i) tCubemap.PosX in
    let w := tTexture.GetWidth tex in
    let h := tTexture.GetHeight tex in
    (true,
     set_Pictures
       (Pictures i ++
          map (fun side =>
                 tPicture.ofBuffer w h (readFace (tCubemap.GetSide (DDSCubemap i) side)))
              sideOrder) i).

(** *** Alt composites *)

(** The loop nest [for y < pic.Height, for x < pic.Width:
    dst.SetPixel(originX + x, originY + y, pic.GetPixel(x, y))] that the
    source writes out once per layer or face. *)
Definition copyInto (dst : tPicture.t) (originX originY : Z) (pic : tPicture.t) : tPicture.t :=
  foldl (fun d y =>
           foldl (fun d x =>
                    tPicture.SetPixel d (originX + x) (originY + y) (tPicture.GetPixel pic x y))
                 d (seqZ 0 (tPicture.GetWidth pic)))
        dst (seqZ 0 (tPicture.GetHeight pic)).

Definition CreateAltPictureDDS2DMipmaps (i : t) : t :=
  let width := foldl (fun wd layer => wd + tPicture.GetWidth layer) 0 (Pictures i) in
  let height := GetHeight i in
  let alt0 := tPicture.Set_ width height transparent in
  let '(alt, _) :=
    foldl (fun '(alt, originX) layer =>
             (copyInto alt originX 0 layer, originX + tPicture.GetWidth layer))
          (alt0, 0) (Pictures i) in
  set_AltPicture alt i.

(** [pic = pic->Next()] taken [n] times from [Pictures.First()]; past the end
    the source dereferences a null pointer, the model reads a cleared picture. *)
Definition nthPicture (i : t) (n : nat) : tPicture.t :=
  default tPicture.Clear (Pictures i !! n).

Definition CreateAltPictureDDSCubemap (i : t) : t :=
  let width := tPicture.GetWidth (nthPicture i 0) in
  let height := tPicture.GetHeight (nthPicture i 0) in
  let alt := tPicture.Set_ (width * 4) (height * 3) transparent in
  (* PosZ *)
  let alt := copyInto alt width height (nthPicture i 0) in
  (* NegZ *)
  let alt := copyInto alt (3 * width) height (nthPicture i 1) in
  (* PosX *)
  let alt := copyInto alt (2 * width) height (nthPicture i 2) in
  (* NegX *)
  let alt := copyInto alt 0 height (nthPicture i 3) in
  (* PosY *)
  let alt := copyInto alt width (2 * height) (nthPicture i 4) in
  (* NegY *)
  let alt := copyInto alt width 0 (nthPicture i 5) in
  set_AltPicture alt i.

(** *** Load and Unload *)

Section Lifecycle.

(** [IsLoaded] is defined inline in the class declaration, which is not among
    the sources; the lifecycle functions take it as a parameter. *)
Variable IsLoaded : t -> bool.

(** The body of the [try] block: the success flag, [srcFileBitdepth] and the
    aggregate afterwards. *)
Definition decode (wld : World) (i : t) : bool * Z * t :=
  let bitdepth (pfmt : tPixelFormat) : Z :=
    if tIsNormalFormat pfmt then tGetBytesPerPixel pfmt * 8 else (-1) in
  if tFileType_eqb (Filetype i) DDS then
    match tCubemap_Load wld (Filename i) with
    | Loaded cube =>
        (true,
         bitdepth (tTexture.GetPixelFormat (tCubemap.GetSide cube tCubemap.PosX)),
         set_DDSCubemap cube i)
    | Threw => (false, -1, set_DDSCubemap tCubemap.Clear i)
    | Failed =>
        let i := set_DDSCubemap tCubemap.Clear i in
        match tTexture_Load wld (Filename i) with
        | Loaded tex =>
            (true, bitdepth (tTexture.GetPixelFormat tex), set_DDSTexture2D tex i)
        | Failed =>
            (false, bitdepth (tTexture.GetPixelFormat tTexture.Clear),
             set_DDSTexture2D tTexture.Clear i)
        | Threw => (false, -1, set_DDSTexture2D tTexture.Clear i)
        end
    end
  else
    (* picture = new tPicture(); Pictures.Append(picture); picture->Load(Filename) *)
    match tPicture_Load wld (Filename i) with
    | Loaded picture =>
        (true, tPicture.SrcFileBitDepth picture,
         set_Pictures (Pictures i ++ [picture]) i)
    | Failed =>
        (false, tPicture.SrcFileBitDepth tPicture.Clear,
         set_Pictures (Pictures i ++ [tPicture.Clear]) i)
    | Threw => (false, -1, set_Pictures (Pictures i ++ [tPicture.Clear]) i)
    end.

(** The [if (success)] block: the info record, then the alt image. *)
Definition fillInfo (wld : World) (srcFileBitdepth : Z) (i : t) : t :=
  let i := set_LoadedTime (tGetTime wld) i in
  let format :=
    if tFileType_eqb (Filetype i) DDS then
      if tCubemap.IsValid (DDSCubemap i)
      then tTexture.GetPixelFormat (tCubemap.GetSide (DDSCubemap i) tCubemap.PosX)
      else tTexture.GetPixelFormat (DDSTexture2D i)
    else
      match First i with
      | Some _ => if srcFileBitdepth =? 24 then R8G8B8 else R8G8B8A8
      | None => Invalid
      end in
  let info :=
    mkInfo (GetWidth i) (GetHeight i) format srcFileBitdepth (IsOpaque i)
           (tGetFileSize wld (Filename i)) (GetMemSizeBytes i)
           (Z.of_nat (length (Pictures i))) in
  let i := set_Info info i in
  if tCubemap.IsValid (DDSCubemap i) then CreateAltPictureDDSCubemap i
  else if tTexture.IsValid (DDSTexture2D i) && (1 <? Mipmaps (Info i))
       then CreateAltPictureDDS2DMipmaps i
       else i.

(** [bool TacitImage::Load()]. *)
Definition Load (wld : World) (i : t) : bool * t :=
  if IsLoaded i then (true, set_LoadedTime (tGetTime wld) i)
  else if tFileType_eqb (Filetype i) Unknown then (false, i)
  else
    let '(success, srcFileBitdepth, i) := decode wld i in
    let i :=
      if tFileType_eqb (Filetype i) DDS then
        if tCubemap.IsValid (DDSCubemap i) then snd (ConvertCubemapToPicture i)
        else if tTexture.IsValid (DDSTexture2D i) then snd (ConvertTexture2DToPicture wld i)
        else i
      else i in
    if success then (true, fillInfo wld srcFileBitdepth i) else (false, i).

(** [bool TacitImage::Load(const tString& filename)]. *)
Definition LoadFile (wld : World) (filename : string) (i : t) : bool * t :=
  if String.eqb filename "" then (false, i)
  else
    let info := tGetFileInfo wld filename in
    let i :=
      set_identity filename (tGetFileType wld filename)
        (if fst info then ModificationTime (snd info) else FileModTime i)
        (if fst info then FileSize (snd info) else FileSizeB i) i in
    Load wld i.

(** [glDeleteTextures] releases the names; both handles end at 0. *)
Definition Unbind (i : t) : t :=
  let primary := if negb (TexIDPrimary i =? 0) then 0 else TexIDPrimary i in
  let alt := if negb (TexIDAlt i =? 0) then 0 else TexIDAlt i in
  set_TexIDs primary alt i.

Definition Unload (i : t) : bool * t :=
  if negb (IsLoaded i) then (true, i)
  else
    let i := Unbind i in
    let i := set_DDSTexture2D tTexture.Clear i in
    let i := set_DDSCubemap tCubemap.Clear i in
    let i := set_AltPicture tPicture.Clear i in
    let i := set_AltPictureEnabled false i in
    let i := set_Pictures [] i in
    let i := set_Info (mkInfo (Width (Info i)) (Height (Info i)) (PixelFormat (Info i))
                         (SrcFileBitDepth (Info i)) (Opaque (Info i))
                         (FileSizeBytes (Info i)) 0 (Mipmaps (Info i))) i in
    let i := set_LoadedTime (-1) i in
    (true, i).

End Lifecycle.

(** *** The thumbnail worker *)

(** The [n] bytes of the object representation of an integer, least
    significant first. *)
Definition leBytes (n : nat) (v : Z) : list Z :=
  map (fun k => (v ≫ (8 * k)) `mod` 256) (seqZ 0 (Z.of_nat n)).

(** What running [GenerateThumbnail] leaves behind: the thumbnail picture and
    the files of the cache directory when it returns, or a failed [tAssert]
    (where assertions are compiled out, the null dereference that follows it):
    the worker does not return. *)
Inductive WorkerResult :=
  | Finished (thumbnail : tPicture.t) (files : gmap string (list Z))
  | AssertFailed.

Section Thumbnail.

Variable IsLoaded : t -> bool.
(** [ThumbWidth] and [ThumbHeight] are constants of the class declaration. *)
Variables ThumbWidth ThumbHeight : Z.
Variable lib : Tacent.

(** The digest that names the cache file.  [thumbVersion], [ThumbWidth] and
    [ThumbHeight] are [int]s of 4 bytes; the size and the two times of
    [tFileInfo] are 8 bytes each. *)
Definition thumbHash (wld : World) (filename : string) : Z :=
  let thumbVersion := 1 in
  let fileInfo := snd (tGetFileInfo wld filename) in
  let hash := tHashData256 lib (leBytes 4 thumbVersion) (HashIV256 lib) in
  let hash := tHashString256 lib filename hash in
  let hash := tHashData256 lib (leBytes 8 (FileSize fileInfo)) hash in
  let hash := tHashData256 lib (leBytes 8 (CreationTime fileInfo)) hash in
  let hash := tHashData256 lib (leBytes 8 (ModificationTime fileInfo)) hash in
  let hash := tHashData256 lib (leBytes 4 ThumbWidth) hash in
  let hash := tHashData256 lib (leBytes 4 ThumbHeight) hash in
  hash.

Definition hashFile (wld : World) (cacheDir filename : string) : string :=
  cacheDir +:+ tsPrintf_X lib (thumbHash wld filename) +:+ ".bin".

(** The size [(iw, ih)] the source is resampled to. *)
Definition thumbSize (srcW srcH : Z) : Z * Z :=
  let scaleX := F32.div (F32.of_int ThumbWidth) (F32.of_int srcW) in
  let scaleY := F32.div (F32.of_int ThumbHeight) (F32.of_int srcH) in
  if F32.ltb scaleX scaleY
  then (ThumbWidth, F32.to_int (F32.tRound (F32.mul (F32.of_int srcH) scaleX)))
  else (F32.to_int (F32.tRound (F32.mul (F32.of_int srcW) scaleY)), ThumbHeight).

(** Resample, centre-crop, and copy into [ThumbnailPicture]. *)
Definition makeThumbnail (srcPic : tPicture.t) : tPicture.t :=
  let srcW := tPicture.GetWidth srcPic in
  let srcH := tPicture.GetHeight srcPic in
  let '(iw, ih) := thumbSize srcW srcH in
  let srcPic := tPicture.Resample (Bilinear lib) srcPic iw ih in
  let srcPic := tPicture.Crop srcPic ThumbWidth ThumbHeight in
  tPicture.Copy srcPic.

(** [void TacitImage::GenerateThumbnail()], run by the worker thread. *)
Definition GenerateThumbnail (wld : World) (cacheDir : string)
    (files : gmap string (list Z)) (i : t) : WorkerResult :=
  if tPicture.IsValid (ThumbnailPicture i) then Finished (ThumbnailPicture i) files
  else
    let file := hashFile wld cacheDir (Filename i) in
    match files !! file with
    | Some chunk => Finished (tPicture_LoadChunk lib chunk) files
    | None =>
        if tFileType_eqb (Filetype i) DDS && negb (glfwCreateWindow wld)
        then Finished (ThumbnailPicture i) files
        else
          let thumbLoader := snd (LoadFile IsLoaded wld (Filename i) Create) in
          match GetPrimaryPicture thumbLoader with
          | None => AssertFailed
          | Some srcPic =>
              let thumbnail := makeThumbnail srcPic in
              Finished thumbnail (<[file := tPicture_Save lib thumbnail]> files)
          end
    end.

(** *** Requests *)

(** [tClampMin(tGetNumCores() - 2, 2)]. *)
Definition numThreadsMax (wld : World) : Z := Z.max (tGetNumCores wld - 2) 2.

(** [void TacitImage::RequestThumbnail()]; the static counter
    [ThumbnailNumThreadsRunning] is threaded through. *)
Definition RequestThumbnail (wld : World) (numRunning : Z) (i : t) : Z * t :=
  if ThumbnailRequested i then (numRunning, i)
  else if numThreadsMax wld <=? numRunning then (numRunning, i)
  else (numRunning + 1, set_thumbState true true true Executing i).

(** The worker's last action, [ThumbnailThreadFlag.clear()], after which the
    thread function returns. *)
Definition workerReturns (thumbnail : tPicture.t) (i : t) : t :=
  set_thumbState (ThumbnailRequested i) (ThumbnailThreadRunning i) false Returned
    (set_ThumbnailPicture thumbnail i).

(** [uint64 TacitImage::BindThumbnail()]: the handle (0 when the thumbnail
    is not available), the counter and the aggregate. *)
Definition BindThumbnail (wld : World) (numRunning : Z) (i : t) : Z * Z * t :=
  if negb (ThumbnailRequested i) then (0, numRunning, i)
  else
    let '(numRunning, i) :=
      if negb (ThumbnailThreadFlag i)
      then (* test_and_set found the flag clear; join the thread *)
        (numRunning - 1, set_thumbState (ThumbnailRequested i) false true NoThread i)
      else (numRunning, i) in
    if ThumbnailThreadRunning i then (0, numRunning, i)
    else if tPicture.IsValid (ThumbnailPicture i) then
      if negb (TexIDThumbnail i =? 0) then (TexIDThumbnail i, numRunning, i)
      else
        let i := set_TexIDThumbnail (glGenTextures wld) i in
        (TexIDThumbnail i, numRunning, i)
    else (0, numRunning, i).

Definition UnrequestThumbnail (i : t) : t :=
  if ThumbnailRequested i && negb (ThumbnailThreadRunning i)
     && negb (tPicture.IsValid (ThumbnailPicture i))
  then set_thumbState false (ThumbnailThreadRunning i) (ThumbnailThreadFlag i)
         (ThumbnailThread i) i
  else i.

End Thumbnail.

(** *** Binding to OpenGL *)

(** The OpenGL constants that the binding code names. *)
Inductive GLenum :=
  | GL_TEXTURE_2D
  | GL_TEXTURE_WRAP_S | GL_TEXTURE_WRAP_T | GL_TEXTURE_MAG_FILTER | GL_TEXTURE_MIN_FILTER
  | GL_REPEAT | GL_NEAREST | GL_LINEAR | GL_LINEAR_MIPMAP_LINEAR
  | GL_RGB | GL_RGBA | GL_BGR | GL_BGRA
  | GL_RGB8 | GL_RGBA8 | GL_RGB5 | GL_RGB5_A1 | GL_RGBA4
  | GL_COMPRESSED_RGBA_S3TC_DXT1_EXT | GL_COMPRESSED_RGB_S3TC_DXT1_EXT
  | GL_COMPRESSED_RGBA_S3TC_DXT3_EXT | GL_COMPRESSED_RGBA_S3TC_DXT5_EXT
  | GL_UNSIGNED_BYTE | GL_UNSIGNED_SHORT_1_5_5_5_REV | GL_UNSIGNED_SHORT_4_4_4_4_REV
  | GL_UNSIGNED_SHORT_5_6_5.

(** The OpenGL calls that [Bind] and [BindLayers] issue, with their
    arguments in the order of the C prototypes.  The data pointer (and, for a
    compressed upload, the data size before it) is represented by the layer
    whose payload it points to. *)
Inductive GLCall :=
  | glBindTexture (target : GLenum) (texture : Z)
  | glTexParameteri (target pname param : GLenum)
  | glCompressedTexImage2D (target : GLenum) (level : Z) (internalformat : GLenum)
      (width height border : Z) (data : tLayer.t)
  | glTexImage2D (target : GLenum) (level : Z) (internalformat : GLenum)
      (width height border : Z) (format type : GLenum) (data : tLayer.t).

Section Binding.

Variable IsLoaded : t -> bool.
(** [GLEW_ARB_texture_compression], which GLEW sets when the extension is
    present. *)
Variable GLEW_ARB_texture_compression : bool.

(** [GetGLFormatInfo]: the values left in [srcFormat], [srcType], [dstFormat]
    and [compressed]; [None] when the [tAssert] fails. *)
Definition GetGLFormatInfo (pixelFormat : tPixelFormat)
    : option (GLenum * GLenum * GLenum * bool) :=
  let srcFormat := GL_RGBA in
  let srcType := GL_UNSIGNED_BYTE in
  let dstFormat := GL_RGBA8 in
  let compressed := false in
  if negb GLEW_ARB_texture_compression then None
  else
    Some
      match pixelFormat with
      | R8G8B8 => (GL_RGB, srcType, GL_RGB8, compressed)
      | R8G8B8A8 => (GL_RGBA, srcType, GL_RGBA8, compressed)
      | B8G8R8 => (GL_BGR, srcType, GL_RGB8, compressed)
      | B8G8R8A8 => (GL_BGRA, srcType, GL_RGBA8, compressed)
      | BC1_DXT1BA =>
          (GL_COMPRESSED_RGBA_S3TC_DXT1_EXT, srcType, GL_COMPRESSED_RGBA_S3TC_DXT1_EXT, true)
      | BC1_DXT1 =>
          (GL_COMPRESSED_RGB_S3TC_DXT1_EXT, srcType, GL_COMPRESSED_RGB_S3TC_DXT1_EXT, true)
      | BC2_DXT3 =>
          (GL_COMPRESSED_RGBA_S3TC_DXT3_EXT, srcType, GL_COMPRESSED_RGBA_S3TC_DXT3_EXT, true)
      | BC3_DXT5 =>
          (GL_COMPRESSED_RGBA_S3TC_DXT5_EXT, srcType, GL_COMPRESSED_RGBA_S3TC_DXT5_EXT, true)
      | G3B5A1R5G2 => (GL_BGRA, GL_UNSIGNED_SHORT_1_5_5_5_REV, GL_RGB5_A1, compressed)
      | G4B4A4R4 => (GL_BGRA, GL_UNSIGNED_SHORT_4_4_4_4_REV, GL_RGBA4, compressed)
      | G3B5R5G3 => (GL_RGB, GL_UNSIGNED_SHORT_5_6_5, GL_RGB5, compressed)
      | Invalid => (srcFormat, srcType, dstFormat, compressed)
      end.

(** One turn of the loop of [BindLayers]: the upload of [layer] as mipmap
    level [mipmapLevel] of a list whose first layer is [first]. *)
Definition uploadLayer (first : tLayer.t) (mipmapLevel : nat) (layer : tLayer.t)
    : option GLCall :=
  let pixelFormat := tLayer.PixelFormat first in
  match GetGLFormatInfo pixelFormat with
  | None => None
  | Some (srcFormat, srcType, dstFormat, compressed) =>
      Some
        (if compressed
         then glCompressedTexImage2D GL_TEXTURE_2D (Z.of_nat mipmapLevel) dstFormat
                (tLayer.Width layer) (tLayer.Height layer) 0 layer
         else glTexImage2D GL_TEXTURE_2D (Z.of_nat mipmapLevel) dstFormat
                (tLayer.Width layer) (tLayer.Height layer) 0 srcFormat srcType layer)
  end.

(** [void TacitImage::BindLayers(const tList<tLayer>& layers, uint texID)]:
    the OpenGL calls it issues, in order; [None] when a [tAssert] fails. *)
Definition BindLayers (layers : list tLayer.t) (texID : Z) : option (list GLCall) :=
  match layers with
  | [] => Some []
  | first :: _ =>
      let mipmapped := 1 <? Z.of_nat (length layers) in
      uploads ← mapM (fun '(mipmapLevel, layer) => uploadLayer first mipmapLevel layer)
                  (imap pair layers);
      Some ([glBindTexture GL_TEXTURE_2D texID;
             glTexParameteri GL_TEXTURE_2D GL_TEXTURE_WRAP_S GL_REPEAT;
             glTexParameteri GL_TEXTURE_2D GL_TEXTURE_WRAP_T GL_REPEAT;
             glTexParameteri GL_TEXTURE_2D GL_TEXTURE_MAG_FILTER GL_NEAREST;
             glTexParameteri GL_TEXTURE_2D GL_TEXTURE_MIN_FILTER
               (if mipmapped then GL_LINEAR_MIPMAP_LINEAR else GL_LINEAR)]
              ++ uploads)
  end.

(** The one-layer list that [Bind] builds around the pixels of a picture. *)
Definition pictureLayers (picture : tPicture.t) : list tLayer.t :=
  [tLayer.mk R8G8B8A8 (tPicture.GetWidth picture) (tPicture.GetHeight picture)
     (tPicture.Pixels picture)].

(** [uint64 TacitImage::Bind()]: the value returned, the aggregate afterwards
    and the OpenGL calls issued; [None] when a [tAssert] fails. *)
Definition Bind (wld : World) (i : t) : option (Z * t * list GLCall) :=
  if AltPictureEnabled i && tPicture.IsValid (AltPicture i) then
    if negb (TexIDAlt i =? 0)
    then Some (TexIDAlt i, i, [glBindTexture GL_TEXTURE_2D (TexIDAlt i)])
    else
      let i := set_TexIDs (TexIDPrimary i) (glGenTextures wld) i in
      if TexIDAlt i =? 0 then Some (0, i, [])
      else
        calls ← BindLayers (pictureLayers (AltPicture i)) (TexIDAlt i);
        Some (TexIDAlt i, i, calls)
  else if negb (TexIDPrimary i =? 0)
  then Some (TexIDPrimary i, i, [glBindTexture GL_TEXTURE_2D (TexIDPrimary i)])
  else if negb (IsLoaded i) then Some (0, i, [])
  else
    let i := set_TexIDs (glGenTextures wld) (TexIDAlt i) i in
    if TexIDPrimary i =? 0 then Some (0, i, [])
    else
      let native :=
        if AltPictureEnabled i then
          if tCubemap.IsValid (DDSCubemap i)
          then Some (tTexture.GetLayers (tCubemap.GetSide (DDSCubemap i) tCubemap.PosZ))
          else if tTexture.IsValid (DDSTexture2D i)
               then Some (tTexture.GetLayers (DDSTexture2D i))
               else None
        else None in
      match native with
      | Some layers =>
          calls ← BindLayers layers (TexIDPrimary i);
          Some (TexIDPrimary i, i, calls)
      | None =>
          match First i with
          | Some picture =>
              if tPicture.IsValid picture then
                calls ← BindLayers (pictureLayers picture) (TexIDPrimary i);
                Some (TexIDPrimary i, i, calls)
              else Some (0, i, [])
          | None => Some (0, i, [])
          end
      end.

End Binding.

(** Modelled from the spec: [IsLoaded], which the class declaration defines
    inline and which is not among the sources.  The data model has the primary
    chain "always populated once loaded", and [Unload] returns to the empty
    state by clearing it: an aggregate is loaded when the chain holds a
    picture.  The functions above take [IsLoaded] as a parameter; this
    definition instantiates it in the examples. *)
Definition IsLoaded (i : t) : bool := 0 <? Z.of_nat (length (Pictures i)).

End TacitImage.

(** ** The process: all aggregates, the static members and the worker threads *)

Record Process := mkProcess {
  Images : list TacitImage.t;
  (** [static int TacitImage::ThumbnailNumThreadsRunning]. *)
  ThumbnailNumThreadsRunning : Z;
  (** [static tString TacitImage::ThumbCacheDir]. *)
  ThumbCacheDir : string;
  (** The files of the cache directory, by name. *)
  CacheFiles : gmap string (list Z);
  (** Set once a worker has hit a failed [tAssert]. *)
  Aborted : bool
}.

(** What can happen next: the owning thread calls one of the three thumbnail
    members on the [n]-th aggregate, or the worker of the [n]-th aggregate runs
    [GenerateThumbnail] to its end, clears the flag and returns. *)
Inductive Event :=
  | CallRequestThumbnail (n : nat)
  | CallBindThumbnail (n : nat)
  | CallUnrequestThumbnail (n : nat)
  | WorkerReturns (n : nat).


Definition isExecuting (i : TacitImage.t) : bool :=
  match TacitImage.ThumbnailThread i with TacitImage.Executing => true | _ => false end.


Section Run.

Variable IsLoaded : TacitImage.t -> bool.
Variables ThumbWidth ThumbHeight : Z.
Variable lib : Tacent.
Variable wld : World.

Definition setImage (n : nat) (i : TacitImage.t) (numRunning : Z) (p : Process) : Process :=
  mkProcess (<[n := i]> (Images p)) numRunning (ThumbCacheDir p) (CacheFiles p) (Aborted p).

Definition step (ev : Event) (p : Process) : Process :=
  if Aborted p then p
  else
    match ev with
    | CallRequestThumbnail n =>
        match Images p !! n with
        | Some i =>
            let '(numRunning, i) :=
              TacitImage.RequestThumbnail wld (ThumbnailNumThreadsRunning p) i in
            setImage n i numRunning p
        | None => p
        end
    | CallBindThumbnail n =>
        match Images p !! n with
        | Some i =>
            let '(_, numRunning, i) :=
              TacitImage.BindThumbnail wld (ThumbnailNumThreadsRunning p) i in
            setImage n i numRunning p
        | None => p
        end
    | CallUnrequestThumbnail n =>
        match Images p !! n with
        | Some i =>
            setImage n (TacitImage.UnrequestThumbnail i) (ThumbnailNumThreadsRunning p) p
        | None => p
        end
    | WorkerReturns n =>
        match Images p !! n with
        | Some i =>
            if isExecuting i then
              match TacitImage.GenerateThumbnail IsLoaded ThumbWidth ThumbHeight lib wld
                      (ThumbCacheDir p) (CacheFiles p) i with
              | TacitImage.Finished thumbnail files =>
                  mkProcess (<[n := TacitImage.workerReturns thumbnail i]> (Images p))
                    (ThumbnailNumThreadsRunning p) (ThumbCacheDir p) files false
              | TacitImage.AssertFailed =>
                  mkProcess (Images p) (ThumbnailNumThreadsRunning p) (ThumbCacheDir p)
                    (CacheFiles p) true
              end
            else p
        | None => p
        end
    end.

(** Events in the order they happen. *)
Definition run (evs : list Event) (p : Process) : Process :=
  foldl (fun p ev => step ev p) p evs.

(** A process that has just constructed one aggregate per file name. *)
Definition start (cacheDir : string) (files : gmap string (list Z))
    (filenames : list string) : Process :=
  mkProcess (map (TacitImage.CreateFrom wld) filenames) 0 cacheDir files false.

End Run.

(** ** Machine queries: [tMachine.cpp] *)

Module tSystem.

(** The value of an [int] (32 bits, two's complement) that holds the bits of
    an unsigned 32-bit value. *)
Definition toInt (v : Z) : Z := (v + 2 ^ 31) `mod` 2 ^ 32 - 2 ^ 31.

(** The value of a [DWORD] (32 bits, unsigned) that an [int] converts to. *)
Definition toDWORD (v : Z) : Z := v `mod` 2 ^ 32.

(** [bool tSystem::tSupportsSSE()]; [features] is [cpuInfo[3]] as [__cpuid]
    fills it in for [infoType] 1. *)
Definition tSupportsSSE (features : Z) : bool :=
  if negb (Z.land features (1 ≪ 25) =? 0) then true else false.

(** [bool tSystem::tSupportsSSE2()]. *)
Definition tSupportsSSE2 (features : Z) : bool :=
  if negb (Z.land features (1 ≪ 26) =? 0) then true else false.

(** [int tSystem::tGetNumCores()]: the result and the function's static
    [numCores] afterwards, from the [dwNumberOfProcessors] that
    [GetSystemInfo] reports and the static before the call. *)
Definition tGetNumCores (dwNumberOfProcessors : Z) (numCores : Z) : Z * Z :=
  if 0 <? numCores then (numCores, numCores)
  else
    let numCores :=
      if (dwNumberOfProcessors =? 0) || (dwNumberOfProcessors =? toDWORD (-1))
      then 1
      else toInt dwNumberOfProcessors in
    (numCores, numCores).

End tSystem.

(** ** The log window: [TextureViewerLog] in [TacitTexView.cpp] *)

Module TextureViewerLog.

(** The buffer holds the characters appended so far (the terminating zero
    that [ImGuiTextBuffer] keeps is not counted by [size()] and not modelled);
    [LineOffsets] is the [ImVector<int>] of line starts. *)
Record t := mk {
  Buf : list Ascii.ascii;
  LineOffsets : list Z;
  ScrollToBottom : bool
}.

Definition newline : Ascii.ascii := Ascii.ascii_of_nat 10.

Definition Clear (log : t) : t := mk [] [0] (ScrollToBottom log).

(** The constructor: [ScrollToBottom(true)], then [Clear()]. *)
Definition Create : t := Clear (mk [] [] true).

(** [AddLog(fmt, ...)]; [text] is what [Buf.appendfv(fmt, args)] appends. *)
Definition AddLog (text : list Ascii.ascii) (log : t) : t :=
  let old_size := Z.of_nat (length (Buf log)) in
  let buf := Buf log ++ text in
  let new_size := Z.of_nat (length buf) in
  let offsets :=
    foldl (fun offsets old_size =>
             if bool_decide (buf !! Z.to_nat old_size = Some newline)
             then offsets ++ [old_size + 1]
             else offsets)
          (LineOffsets log) (seqZ old_size (new_size - old_size)) in
  mk buf offsets true.

(** The characters from [line_start] up to [line_end] that [Draw] hands to
    [TextUnformatted] (and to the filter) for line [line_no]. *)
Definition line (log : t) (line_no : nat) : list Ascii.ascii :=
  let Size := length (LineOffsets log) in
  let line_start := default 0 (LineOffsets log !! line_no) in
  let line_end :=
    if bool_decide (line_no + 1 < Size)%nat
    then default 0 (LineOffsets log !! (line_no + 1)%nat) - 1
    else Z.of_nat (length (Buf log)) in
  take (Z.to_nat (line_end - line_start)) (drop (Z.to_nat line_start) (Buf log)).

(** [Draw]: the log afterwards and the lines shown, in order.  [clear] is
    whether the Clear button was pressed; [filter] is the test of the filter
    when it is active; [clipper] lists the [DisplayStart] and [DisplayEnd] of
    the steps of the list clipper. *)
Definition Draw (clear : bool) (filter : option (list Ascii.ascii -> bool))
    (clipper : list (nat * nat)) (log : t) : t * list (list Ascii.ascii) :=
  let log := if clear then Clear log else log in
  let shown :=
    match filter with
    | Some passFilter =>
        List.filter passFilter (map (line log) (seq 0 (length (LineOffsets log))))
    | None =>
        flat_map (fun '(DisplayStart, DisplayEnd) =>
                    map (line log) (seq DisplayStart (DisplayEnd - DisplayStart)))
                 clipper
    end in
  (mk (Buf log) (LineOffsets log) false, shown).

End TextureViewerLog.

(** The same world at another moment and with another number of cores: files,
    decoders and OpenGL answer as before. *)
Definition atTime (time cores : Z) (wld : World) : World :=
  mkWorld (tGetFileType wld) (tGetFileInfo wld) (tGetFileSize wld) time cores
    (tCubemap_Load wld) (tTexture_Load wld) (tPicture_Load wld)
    (glGenTextures wld) (glfwCreateWindow wld).

(** ** A small concrete world, used by the examples *)

Module Sample.

Definition red : tPixel := mkPixel 255 0 0 255.
Definition green : tPixel := mkPixel 0 255 0 255.
Definition blue : tPixel := mkPixel 0 0 255 255.
Definition glass : tPixel := mkPixel 9 9 9 128.

Definition face (c : tPixel) : tTexture.t :=
  tTexture.mk [tLayer.mk BC1_DXT1 1 1 [c]] true.

(** A cube map with opaque 1x1 faces. *)
Definition sky : tCubemap.t :=
  tCubemap.mk (face red) (face green) (face blue) (face red) (face green) (face blue).

(** A 2x2 texture with one further mip level. *)
Definition mips : tTexture.t :=
  tTexture.mk [tLayer.mk BC3_DXT5 2 2 [red; green; blue; glass];
               tLayer.mk BC3_DXT5 1 1 [red]] false.

(** A 4x2 raster image. *)
Definition photo : tPicture.t :=
  tPicture.mk 4 2 [red; green; blue; red; green; blue; red; green] 24.

Definition fileType (name : string) : tFileType :=
  if String.eqb name "sky.dds" || String.eqb name "mips.dds" || String.eqb name "missing.dds"
  then DDS
  else if String.eqb name "photo.tga" || String.eqb name "missing.tga" then TGA
  else Unknown.

Definition exists_ (name : string) : bool :=
  String.eqb name "sky.dds" || String.eqb name "mips.dds" || String.eqb name "photo.tga".

Definition world : World :=
  mkWorld fileType
    (fun name => if exists_ name then (true, mkFileInfo 4096 1000 2000)
                 else (false, mkFileInfo 0 0 0))
    (fun name => if exists_ name then 4096 else 0)
    77 4
    (fun name => if String.eqb name "sky.dds" then Loaded sky else Failed)
    (fun name => if String.eqb name "mips.dds" then Loaded mips else Failed)
    (fun name => if String.eqb name "photo.tga" then Loaded photo else Failed)
    5 true.

(** The same files seen later, on a machine with other cores. *)
Definition worldLater : World := atTime 900 16 world.

Definition mix (data : list Z) (iv : Z) : Z :=
  foldl (fun h b => (h * 257 + b + 1) `mod` 2 ^ 256) iv data.

Fixpoint pixelsOf (l : list Z) : list tPixel :=
  match l with
  | r :: g :: b :: a :: rest => mkPixel r g b a :: pixelsOf rest
  | _ => []
  end.

(** Stand-ins for the library functions. *)
Definition lib : Tacent :=
  mkTacent mix
    (fun s iv => mix (map (fun c => Z.of_nat (Ascii.nat_of_ascii c)) (String.list_ascii_of_string s)) iv)
    12345
    (fun h => pretty h)
    (fun p w h x y => tPicture.GetPixel p (x * tPicture.Width p `div` w) (y * tPicture.Height p `div` h))
    (fun p => tPicture.Width p :: tPicture.Height p
                :: flat_map (fun c => [R c; G c; B c; A c]) (tPicture.Pixels p))
    (fun chunk => match chunk with
                  | w :: h :: rest => tPicture.mk w h (pixelsOf rest) 32
                  | _ => tPicture.Clear
                  end).

Definition load (name : string) : bool * TacitImage.t :=
  TacitImage.Load TacitImage.IsLoaded world (TacitImage.CreateFrom world name).

Definition step := step TacitImage.IsLoaded 4 4 lib world.
Definition run := run TacitImage.IsLoaded 4 4 lib world.
Definition start := start world "cache/" ∅.

End Sample.

(** ** Definitions used to state the properties *)

(** The fallback order in the spec's words: the alt buffer if present and
    enabled, else mip level 0 of the primary chain, else nothing. *)
Definition readFrom (i : TacitImage.t) : option tPicture.t :=
  if tPicture.IsValid (TacitImage.AltPicture i) && TacitImage.AltPictureEnabled i
  then Some (TacitImage.AltPicture i)
  else match TacitImage.Pictures i !! 0%nat with
       | Some level0 => if tPicture.IsValid level0 then Some level0 else None
       | None => None
       end.

(** The empty state: no pictures, cleared containers, no alt buffer. *)
Definition unloaded (i : TacitImage.t) : Prop :=
  TacitImage.Pictures i = []
  /\ TacitImage.DDSCubemap i = tCubemap.Clear
  /\ TacitImage.DDSTexture2D i = tTexture.Clear
  /\ TacitImage.AltPicture i = tPicture.Clear.


(** A pixel buffer whose array has the size its dimensions announce. *)
Definition wfPic (p : tPicture.t) : Prop :=
  0 <= tPicture.Width p /\ 0 <= tPicture.Height p
  /\ length (tPicture.Pixels p) = Z.to_nat (tPicture.Width p * tPicture.Height p).



(** The four states of one aggregate's thumbnail request: not requested;
    requested with the worker executing; requested with the worker returned
    but not yet joined; requested and joined. *)
Definition thumbStateOK (i : TacitImage.t) : bool :=
  match TacitImage.ThumbnailRequested i, TacitImage.ThumbnailThreadRunning i,
        TacitImage.ThumbnailThreadFlag i, TacitImage.ThumbnailThread i with
  | false, false, _, TacitImage.NoThread => true
  | true, true, true, TacitImage.Executing => true
  | true, true, false, TacitImage.Returned => true
  | true, false, true, TacitImage.NoThread => true
  | _, _, _, _ => false
  end.


(** The cache key in the spec's words: a digest over the format version
    constant, the source path, the file size, the creation time, the
    modification time and the thumbnail target width and height. *)
Definition digestOver (lib : Tacent) (version : Z) (path : string)
    (size created modified width height : Z) : Z :=
  let h := tHashData256 lib (TacitImage.leBytes 4 version) (HashIV256 lib) in
  let h := tHashString256 lib path h in
  let h := tHashData256 lib (TacitImage.leBytes 8 size) h in
  let h := tHashData256 lib (TacitImage.leBytes 8 created) h in
  let h := tHashData256 lib (TacitImage.leBytes 8 modified) h in
  let h := tHashData256 lib (TacitImage.leBytes 4 width) h in
  tHashData256 lib (TacitImage.leBytes 4 height) h.

(** The mip strip in the spec's words: the levels of the chain side by side
    from the left, each standing on the bottom row; what no level covers is
    transparent. *)
Fixpoint stripPixel (pics : list tPicture.t) (x y : Z) : tPixel :=
  match pics with
  | [] => transparent
  | pic :: pics =>
      if x <? tPicture.GetWidth pic
      then if y <? tPicture.GetHeight pic then tPicture.GetPixel pic x y else transparent
      else stripPixel pics (x - tPicture.GetWidth pic) y
  end.

(** The widths of a chain, added up. *)
Fixpoint stripWidth (pics : list tPicture.t) : Z :=
  match pics with
  | [] => 0
  | pic :: pics => tPicture.GetWidth pic + stripWidth pics
  end.

(** The bytes the pictures of a chain take, four per pixel. *)
Fixpoint chainBytes (pics : list tPicture.t) : Z :=
  match pics with
  | [] => 0
  | pic :: pics => tPicture.GetNumPixels pic * 4 + chainBytes pics
  end.

(** An aggregate as the constructors leave it: the empty state, the alt view
    switched off and no texture name held. *)
Definition pristine (i : TacitImage.t) : Prop :=
  unloaded i
  /\ TacitImage.AltPictureEnabled i = false
  /\ TacitImage.TexIDPrimary i = 0
  /\ TacitImage.TexIDAlt i = 0.

(** What [Load] never writes: the file identity, the alt visibility flag, the
    two texture names and the thumbnail state. *)
Definition LoadKeeps (i r : TacitImage.t) : Prop :=
  r = TacitImage.mk (TacitImage.Filename i) (TacitImage.Filetype i)
        (TacitImage.FileModTime i) (TacitImage.FileSizeB i)
        (TacitImage.LoadedTime r) (TacitImage.Info r) (TacitImage.DDSCubemap r)
        (TacitImage.DDSTexture2D r) (TacitImage.Pictures r) (TacitImage.AltPicture r)
        (TacitImage.AltPictureEnabled i) (TacitImage.TexIDPrimary i) (TacitImage.TexIDAlt i)
        (TacitImage.ThumbnailRequested i) (TacitImage.ThumbnailThreadRunning i)
        (TacitImage.ThumbnailThreadFlag i) (TacitImage.ThumbnailThread i)
        (TacitImage.ThumbnailPicture i) (TacitImage.TexIDThumbnail i).

(** The thumbnail picture that the [n]-th aggregate of a process holds. *)
Definition thumbnailOf (p : Process) (n : nat) : option tPicture.t :=
  TacitImage.ThumbnailPicture <$> Images p !! n.

(** The thumbnail texture name that the [n]-th aggregate of a process holds. *)
Definition thumbnailTexOf (p : Process) (n : nat) : option Z :=
  TacitImage.TexIDThumbnail <$> Images p !! n.


(** The block-compressed formats. *)
Definition isBlockCompressed (f : tPixelFormat) : bool :=
  match f with
  | BC1_DXT1BA | BC1_DXT1 | BC2_DXT3 | BC3_DXT5 => true
  | _ => false
  end.

(** The five calls with which [BindLayers] prepares a texture name that is
    to receive [n] layers. *)
Definition bindSetup (texID : Z) (n : nat) : list TacitImage.GLCall :=
  [TacitImage.glBindTexture TacitImage.GL_TEXTURE_2D texID;
   TacitImage.glTexParameteri TacitImage.GL_TEXTURE_2D TacitImage.GL_TEXTURE_WRAP_S
     TacitImage.GL_REPEAT;
   TacitImage.glTexParameteri TacitImage.GL_TEXTURE_2D TacitImage.GL_TEXTURE_WRAP_T
     TacitImage.GL_REPEAT;
   TacitImage.glTexParameteri TacitImage.GL_TEXTURE_2D TacitImage.GL_TEXTURE_MAG_FILTER
     TacitImage.GL_NEAREST;
   TacitImage.glTexParameteri TacitImage.GL_TEXTURE_2D TacitImage.GL_TEXTURE_MIN_FILTER
     (if decide (n = 1%nat) then TacitImage.GL_LINEAR
      else TacitImage.GL_LINEAR_MIPMAP_LINEAR)].

(** Successive calls of [tGetNumCores] in one process: the results, from the
    processor counts the system reports at each call and the static the first
    call finds. *)
Fixpoint polls (reports : list Z) (numCores : Z) : list Z :=
  match reports with
  | [] => []
  | dw :: reports =>
      let '(result, numCores) := tSystem.tGetNumCores dw numCores in
      result :: polls reports numCores
  end.

(** A text cut at its newline characters: the lines, without the newlines;
    a text that ends in a newline has an empty last line. *)
Fixpoint splitLines (s : list Ascii.ascii) : list (list Ascii.ascii) :=
  match s with
  | [] => [[]]
  | c :: s =>
      if bool_decide (c = TextureViewerLog.newline) then [] :: splitLines s
      else match splitLines s with
           | l :: ls => (c :: l) :: ls
           | [] => [[c]]
           end
  end.

(** What the user does with the log: append a text or press Clear. *)
Inductive LogOp :=
  | OpAddLog (text : list Ascii.ascii)
  | OpClear.

Definition applyLogOp (log : TextureViewerLog.t) (op : LogOp) : TextureViewerLog.t :=
  match op with
  | OpAddLog text => TextureViewerLog.AddLog text log
  | OpClear => TextureViewerLog.Clear log
  end.

(** The positions just after the newline characters of a text that starts at
    position [base]. *)
Fixpoint nlOffsets (base : Z) (s : list Ascii.ascii) : list Z :=
  match s with
  | [] => []
  | c :: s =>
      if bool_decide (c = TextureViewerLog.newline)
      then (base + 1) :: nlOffsets (base + 1) s
      else nlOffsets (base + 1) s
  end.

(** The pieces of a buffer between consecutive offsets, each ending one
    character before the next offset, the last one running to the end. *)
Fixpoint slices (buf : list Ascii.ascii) (start : Z) (offsets : list Z)
    : list (list Ascii.ascii) :=
  match offsets with
  | [] => [drop (Z.to_nat start) buf]
  | o :: offsets =>
      take (Z.to_nat (o - 1 - start)) (drop (Z.to_nat start) buf) :: slices buf o offsets
  end.

(** A text put in front of the first line of a list of lines. *)
Definition prepend (x : list Ascii.ascii) (ls : list (list Ascii.ascii))
    : list (list Ascii.ascii) :=
  match ls with
  | l :: ls => (x ++ l) :: ls
  | [] => [x]
  end.

(** * Properties *)

(** ** Queries: which representation is read *)

Lemma First_lookup (i : TacitImage.t) :
  TacitImage.First i = TacitImage.Pictures i !! 0%nat.
Proof. unfold TacitImage.First. by destruct (TacitImage.Pictures i). Qed.

(** C7: [GetWidth], [GetHeight] and [GetPixel] all read the representation
    selected by the same fallback order (alt buffer when valid and enabled,
    else a valid mip level 0 of the primary chain) and report zero, zero and
    black when there is none. *)
Theorem queries_share_fallback_order (i : TacitImage.t) :
  TacitImage.GetWidth i = from_option tPicture.GetWidth 0 (readFrom i)
  /\ TacitImage.GetHeight i = from_option tPicture.GetHeight 0 (readFrom i)
  /\ forall x y,
       TacitImage.GetPixel i x y
       = from_option (fun pic => tPicture.GetPixel pic x y) black (readFrom i).
Proof.
  unfold TacitImage.GetWidth, TacitImage.GetHeight, TacitImage.GetPixel, readFrom.
  rewrite First_lookup.
  destruct (tPicture.IsValid (TacitImage.AltPicture i) && TacitImage.AltPictureEnabled i);
    [by repeat split|].
  destruct (TacitImage.Pictures i !! 0%nat) as [level0|]; [|by repeat split].
  by destruct (tPicture.IsValid level0).
Qed.

(** ** Load on a loaded aggregate *)

(** C8: on an aggregate that is already loaded, [Load] returns success and
    changes nothing but the last-accessed time; the info record, the pictures
    of the mip chain and the alt buffer are as before. *)
Theorem Load_loaded_refreshes_only
    (IsLoaded : TacitImage.t -> bool) (wld : World) (i : TacitImage.t)
    (Hloaded : IsLoaded i = true) :
  let r := TacitImage.Load IsLoaded wld i in
  fst r = true
  /\ snd r = TacitImage.set_LoadedTime (tGetTime wld) i
  /\ TacitImage.Info (snd r) = TacitImage.Info i
  /\ TacitImage.Pictures (snd r) = TacitImage.Pictures i
  /\ TacitImage.AltPicture (snd r) = TacitImage.AltPicture i
  /\ TacitImage.AltPictureEnabled (snd r) = TacitImage.AltPictureEnabled i.
Proof.
  unfold TacitImage.Load. rewrite Hloaded. simpl. by repeat split.
Qed.

Lemma Load_loaded_refreshes_only_witness :
  let i := snd (Sample.load "photo.tga") in
  let r := TacitImage.Load TacitImage.IsLoaded Sample.worldLater i in
  TacitImage.IsLoaded i = true
  /\ fst r = true
  /\ TacitImage.LoadedTime i = 77 /\ TacitImage.LoadedTime (snd r) = 900
  /\ TacitImage.Info (snd r) = TacitImage.Info i
  /\ TacitImage.Pictures (snd r) = TacitImage.Pictures i
  /\ TacitImage.AltPicture (snd r) = TacitImage.AltPicture i.
Proof.
  pose proof (Load_loaded_refreshes_only TacitImage.IsLoaded Sample.worldLater
                (snd (Sample.load "photo.tga")) eq_refl) as H.
  cbv zeta in H. destruct H as (H1 & H2 & H3 & H4 & H5 & _).
  repeat split; try assumption; reflexivity.
Defined.

(** ** Unload *)

Lemma Unload_clears_containers :
  let i := snd (Sample.load "mips.dds") in
  let r := TacitImage.Unload TacitImage.IsLoaded i in
  TacitImage.IsLoaded i = true
  /\ tTexture.IsValid (TacitImage.DDSTexture2D i) = true
  /\ tTexture.IsValid (TacitImage.DDSTexture2D (snd r)) = false.
Proof. vm_compute. by repeat split. Qed.

(** C10, amended: [Unload] always returns success; it leaves the file
    identity, the info record apart from its memory size, and the whole
    thumbnail state (requested and running flags, completion flag, thread,
    thumbnail picture, thumbnail handle) as they were; on an aggregate that is
    not loaded it changes nothing; on a loaded one it zeroes the two handles,
    clears the two compressed containers, the alt buffer, its visibility flag
    and the mip chain, zeroes the memory size and resets the loaded time. *)
Theorem Unload_frame (IsLoaded : TacitImage.t -> bool) (i : TacitImage.t) :
  let r := TacitImage.Unload IsLoaded i in
  fst r = true
  /\ (TacitImage.Filename (snd r) = TacitImage.Filename i
      /\ TacitImage.Filetype (snd r) = TacitImage.Filetype i
      /\ TacitImage.FileModTime (snd r) = TacitImage.FileModTime i
      /\ TacitImage.FileSizeB (snd r) = TacitImage.FileSizeB i)
  /\ (TacitImage.Width (TacitImage.Info (snd r)) = TacitImage.Width (TacitImage.Info i)
      /\ TacitImage.Height (TacitImage.Info (snd r)) = TacitImage.Height (TacitImage.Info i)
      /\ TacitImage.PixelFormat (TacitImage.Info (snd r))
         = TacitImage.PixelFormat (TacitImage.Info i)
      /\ TacitImage.SrcFileBitDepth (TacitImage.Info (snd r))
         = TacitImage.SrcFileBitDepth (TacitImage.Info i)
      /\ TacitImage.Opaque (TacitImage.Info (snd r)) = TacitImage.Opaque (TacitImage.Info i)
      /\ TacitImage.FileSizeBytes (TacitImage.Info (snd r))
         = TacitImage.FileSizeBytes (TacitImage.Info i)
      /\ TacitImage.Mipmaps (TacitImage.Info (snd r)) = TacitImage.Mipmaps (TacitImage.Info i))
  /\ (TacitImage.ThumbnailRequested (snd r) = TacitImage.ThumbnailRequested i
      /\ TacitImage.ThumbnailThreadRunning (snd r) = TacitImage.ThumbnailThreadRunning i
      /\ TacitImage.ThumbnailThreadFlag (snd r) = TacitImage.ThumbnailThreadFlag i
      /\ TacitImage.ThumbnailThread (snd r) = TacitImage.ThumbnailThread i
      /\ TacitImage.ThumbnailPicture (snd r) = TacitImage.ThumbnailPicture i
      /\ TacitImage.TexIDThumbnail (snd r) = TacitImage.TexIDThumbnail i)
  /\ (IsLoaded i = false -> snd r = i)
  /\ (IsLoaded i = true ->
      TacitImage.TexIDPrimary (snd r) = 0
      /\ TacitImage.TexIDAlt (snd r) = 0
      /\ TacitImage.DDSTexture2D (snd r) = tTexture.Clear
      /\ TacitImage.DDSCubemap (snd r) = tCubemap.Clear
      /\ TacitImage.AltPicture (snd r) = tPicture.Clear
      /\ TacitImage.AltPictureEnabled (snd r) = false
      /\ TacitImage.Pictures (snd r) = []
      /\ TacitImage.MemSizeBytes (TacitImage.Info (snd r)) = 0
      /\ TacitImage.LoadedTime (snd r) = -1).
Proof.
  unfold TacitImage.Unload.
  destruct (IsLoaded i) eqn:Hl; cbn [negb fst snd].
  - repeat split; try done.
    + unfold TacitImage.Unbind. cbn. by destruct (TacitImage.TexIDPrimary i =? 0) eqn:E;
        [apply Z.eqb_eq in E|].
    + unfold TacitImage.Unbind. cbn. by destruct (TacitImage.TexIDAlt i =? 0) eqn:E;
        [apply Z.eqb_eq in E|].
  - by repeat split.
Qed.

(** ** Opacity *)

Lemma IsOpaque_ignores_alt :
  let i := TacitImage.set_AltPictureEnabled true (snd (Sample.load "sky.dds")) in
  fst (Sample.load "sky.dds") = true
  /\ readFrom i = Some (TacitImage.AltPicture i)
  /\ TacitImage.IsOpaque i = true
  /\ TacitImage.GetPixel i 0 0 = transparent
  /\ A (TacitImage.GetPixel i 0 0) = 0.
Proof. vm_compute. by repeat split. Qed.

(** C3, amended: [IsOpaque] never consults the alt buffer.  With a valid cube
    container it is the conjunction of the six faces' opacity; otherwise, with
    a valid single-surface container, it is that container's format-level
    marker; otherwise, with a valid first picture of the primary chain (the
    representation [GetPixel] reads when the alt buffer is absent or disabled),
    it is true iff every pixel of that picture has fully opaque alpha;
    otherwise it is true. *)
Theorem IsOpaque_dispatch (i : TacitImage.t) :
  (forall alt enabled,
     TacitImage.IsOpaque
       (TacitImage.set_AltPictureEnabled enabled (TacitImage.set_AltPicture alt i))
     = TacitImage.IsOpaque i)
  /\ (tCubemap.IsValid (TacitImage.DDSCubemap i) = true ->
      TacitImage.IsOpaque i
      = forallb (fun side => tTexture.IsOpaque (tCubemap.GetSide (TacitImage.DDSCubemap i) side))
          tCubemap.allSides)
  /\ (tCubemap.IsValid (TacitImage.DDSCubemap i) = false ->
      tTexture.IsValid (TacitImage.DDSTexture2D i) = true ->
      TacitImage.IsOpaque i = tTexture.Opaque (TacitImage.DDSTexture2D i))
  /\ (tCubemap.IsValid (TacitImage.DDSCubemap i) = false ->
      tTexture.IsValid (TacitImage.DDSTexture2D i) = false ->
      match TacitImage.Pictures i !! 0%nat with
      | Some level0 =>
          if tPicture.IsValid level0
          then TacitImage.IsOpaque i = true
               <-> (forall c, c ∈ tPicture.Pixels level0 -> A c = 255)
          else TacitImage.IsOpaque i = true
      | None => TacitImage.IsOpaque i = true
      end).
Proof.
  split; [done|].
  unfold TacitImage.IsOpaque. rewrite First_lookup.
  split; [by intros ->|]. split; [by intros -> ->|].
  intros -> ->. destruct (TacitImage.Pictures i !! 0%nat) as [level0|]; [|done].
  destruct (tPicture.IsValid level0); [|done].
  unfold tPicture.IsOpaque. rewrite forallb_forall.
  split; intros H c Hc.
  - apply Z.eqb_eq, H. by apply list_elem_of_In.
  - apply Z.eqb_eq, H. by apply list_elem_of_In.
Qed.

(** ** Load that fails *)




(** ** Writing pixels: the copy loops *)

Lemma index_inj (W x y x' y' : Z) :
  0 <= x < W -> 0 <= x' < W -> y * W + x = y' * W + x' -> x = x' /\ y = y'.
Proof.
  intros Hx Hx' He.
  assert (y = y') as -> by nia. lia.
Qed.

Lemma SetPixel_wf (d : tPicture.t) (a b : Z) (c : tPixel) :
  wfPic d -> wfPic (tPicture.SetPixel d a b c).
Proof.
  unfold wfPic, tPicture.SetPixel. cbn. by rewrite length_insert.
Qed.

Lemma GetPixel_SetPixel (d : tPicture.t) (a b X Y : Z) (c : tPixel) :
  wfPic d ->
  0 <= a < tPicture.Width d -> 0 <= b < tPicture.Height d ->
  0 <= X < tPicture.Width d -> 0 <= Y < tPicture.Height d ->
  tPicture.GetPixel (tPicture.SetPixel d a b c) X Y
  = if bool_decide (X = a /\ Y = b) then c else tPicture.GetPixel d X Y.
Proof.
  intros (HW & HH & Hlen) Ha Hb HX HY.
  unfold tPicture.GetPixel, tPicture.SetPixel. cbn.
  case_bool_decide as Heq.
  - destruct Heq as [-> ->]. rewrite list_lookup_insert_eq; [done|].
    rewrite Hlen. apply Z2Nat.inj_lt; nia.
  - rewrite list_lookup_insert_ne; [done|].
    intros He. apply Z2Nat.inj in He; [|nia|nia].
    destruct (index_inj _ _ _ _ _ Ha HX He) as [-> ->]. by apply Heq.
Qed.

(** One row of the copy: [n] pixels of row [y] of [pic] written at
    [(originX, originY + y)]. *)
Lemma copy_row (pic : tPicture.t) (originX originY y : Z) (n : nat) (d : tPicture.t) :
  wfPic d ->
  0 <= originX -> originX + Z.of_nat n <= tPicture.Width d ->
  0 <= originY + y < tPicture.Height d ->
  let d' :=
    foldl (fun d x =>
             tPicture.SetPixel d (originX + x) (originY + y) (tPicture.GetPixel pic x y))
          d (seqZ 0 (Z.of_nat n)) in
  wfPic d'
  /\ tPicture.Width d' = tPicture.Width d
  /\ tPicture.Height d' = tPicture.Height d
  /\ forall X Y,
       0 <= X < tPicture.Width d -> 0 <= Y < tPicture.Height d ->
       tPicture.GetPixel d' X Y
       = if bool_decide (originX <= X < originX + Z.of_nat n /\ Y = originY + y)
         then tPicture.GetPixel pic (X - originX) y
         else tPicture.GetPixel d X Y.
Proof.
  intros Hwf Hox Hfit Hrow. induction n as [|n IH].
  - cbn. split; [done|]. split; [done|]. split; [done|].
    intros X Y _ _. case_bool_decide; [lia|done].
  - rewrite seqZ_S, foldl_snoc. cbv zeta in IH |- *.
    destruct IH as (IHwf & IHW & IHH & IHpix); [lia|].
    set (d' := foldl _ d _) in *.
    split; [apply SetPixel_wf, IHwf|]. split; [done|]. split; [done|].
    intros X Y HX HY.
    rewrite GetPixel_SetPixel; [|done|lia..].
    rewrite IHpix by done.
    repeat case_bool_decide; try lia; try done.
    f_equal; lia.
Qed.

(** The whole copy of [pic] into [d] at [(originX, originY)]. *)
Lemma copyInto_pixels (pic d : tPicture.t) (originX originY : Z) :
  wfPic d ->
  0 <= tPicture.Width pic -> 0 <= tPicture.Height pic ->
  0 <= originX -> originX + tPicture.Width pic <= tPicture.Width d ->
  0 <= originY -> originY + tPicture.Height pic <= tPicture.Height d ->
  let d' := TacitImage.copyInto d originX originY pic in
  wfPic d'
  /\ tPicture.Width d' = tPicture.Width d
  /\ tPicture.Height d' = tPicture.Height d
  /\ forall X Y,
       0 <= X < tPicture.Width d -> 0 <= Y < tPicture.Height d ->
       tPicture.GetPixel d' X Y
       = if bool_decide (originX <= X < originX + tPicture.Width pic
                         /\ originY <= Y < originY + tPicture.Height pic)
         then tPicture.GetPixel pic (X - originX) (Y - originY)
         else tPicture.GetPixel d X Y.
Proof.
  intros Hwf Hw Hh Hox Hfitx Hoy Hfity. unfold TacitImage.copyInto, tPicture.GetWidth,
    tPicture.GetHeight.
  cbv zeta.
  replace (seqZ 0 (tPicture.Width pic))
    with (seqZ 0 (Z.of_nat (Z.to_nat (tPicture.Width pic)))) by (by rewrite Z2Nat.id).
  replace (seqZ 0 (tPicture.Height pic))
    with (seqZ 0 (Z.of_nat (Z.to_nat (tPicture.Height pic)))) by (by rewrite Z2Nat.id).
  assert (Z.of_nat (Z.to_nat (tPicture.Height pic)) <= tPicture.Height pic) as Hm by lia.
  assert (forall m : nat, Z.of_nat m <= tPicture.Height pic ->
    let d' :=
      foldl (fun d y =>
               foldl (fun d x =>
                        tPicture.SetPixel d (originX + x) (originY + y)
                          (tPicture.GetPixel pic x y))
                     d (seqZ 0 (Z.of_nat (Z.to_nat (tPicture.Width pic)))))
            d (seqZ 0 (Z.of_nat m)) in
    wfPic d'
    /\ tPicture.Width d' = tPicture.Width d
    /\ tPicture.Height d' = tPicture.Height d
    /\ forall X Y,
         0 <= X < tPicture.Width d -> 0 <= Y < tPicture.Height d ->
         tPicture.GetPixel d' X Y
         = if bool_decide (originX <= X < originX + tPicture.Width pic
                           /\ originY <= Y < originY + Z.of_nat m)
           then tPicture.GetPixel pic (X - originX) (Y - originY)
           else tPicture.GetPixel d X Y) as Hrows.
  { induction m as [|m IH]; intros Hle.
    - cbn. split; [done|]. split; [done|]. split; [done|].
      intros X Y _ _. case_bool_decide; [lia|done].
    - rewrite seqZ_S, foldl_snoc. cbv zeta in IH |- *.
      destruct IH as (IHwf & IHW & IHH & IHpix); [lia|].
      set (d' := foldl _ d (seqZ 0 (Z.of_nat m))) in *.
      destruct (copy_row pic originX originY (0 + Z.of_nat m)
                  (Z.to_nat (tPicture.Width pic)) d') as (Rwf & RW & RH & Rpix);
        [done|lia..|].
      split; [done|]. split; [lia|]. split; [lia|].
      intros X Y HX HY. rewrite Rpix by lia. rewrite IHpix by done.
      repeat case_bool_decide; try lia; try done.
      f_equal; lia. }
  destruct (Hrows (Z.to_nat (tPicture.Height pic)) Hm) as (Rwf & RW & RH & Rpix).
  split; [done|]. split; [done|]. split; [done|].
  intros X Y HX HY. rewrite Rpix by done.
  repeat case_bool_decide; try lia; done.
Qed.

(** ** The cube-map cross *)

Lemma Set_wf (w h : Z) (c : tPixel) :
  0 <= w -> 0 <= h ->
  wfPic (tPicture.Set_ w h c)
  /\ forall X Y, 0 <= X < w -> 0 <= Y < h -> tPicture.GetPixel (tPicture.Set_ w h c) X Y = c.
Proof.
  intros Hw Hh. split.
  - unfold wfPic, tPicture.Set_. cbn. by rewrite length_replicate.
  - intros X Y HX HY. unfold tPicture.GetPixel, tPicture.Set_. cbn.
    rewrite lookup_replicate_2; [done|]. apply Z2Nat.inj_lt; nia.
Qed.









(** ** The worker budget *)





(** The two library calls that would end the process, assigning to a joinable
    [std::thread] and joining one that is not joinable, are never reached:
    [RequestThumbnail] starts a thread only where there is none, and
    [BindThumbnail] joins only a thread that has returned. *)
Lemma start_finds_no_thread (i : TacitImage.t) :
  thumbStateOK i = true -> TacitImage.ThumbnailRequested i = false ->
  TacitImage.ThumbnailThread i = TacitImage.NoThread.
Proof.
  unfold thumbStateOK. intros H Hreq. rewrite Hreq in H.
  by destruct (TacitImage.ThumbnailThreadRunning i), (TacitImage.ThumbnailThreadFlag i),
    (TacitImage.ThumbnailThread i).
Qed.

Lemma join_finds_returned_thread (i : TacitImage.t) :
  thumbStateOK i = true -> TacitImage.ThumbnailRequested i = true ->
  TacitImage.ThumbnailThreadFlag i = false ->
  TacitImage.ThumbnailThread i = TacitImage.Returned.
Proof.
  unfold thumbStateOK. intros H Hreq Hflag. rewrite Hreq, Hflag in H.
  by destruct (TacitImage.ThumbnailThreadRunning i), (TacitImage.ThumbnailThread i).
Qed.

Section Budget.

Variable IsLoaded : TacitImage.t -> bool.
Variables ThumbWidth ThumbHeight : Z.
Variable lib : Tacent.
Variable wld : World.





End Budget.



(** ** Resampling and cropping *)






(** ** The cache key and the cache file *)

Lemma CreateAltPictureDDS2DMipmaps_Pictures (i : TacitImage.t) :
  TacitImage.Pictures (TacitImage.CreateAltPictureDDS2DMipmaps i) = TacitImage.Pictures i.
Proof.
  unfold TacitImage.CreateAltPictureDDS2DMipmaps.
  by destruct (foldl _ _ _) as [alt originX].
Qed.

Lemma fillInfo_Pictures (wld : World) (bitdepth : Z) (i : TacitImage.t) :
  TacitImage.Pictures (TacitImage.fillInfo wld bitdepth i) = TacitImage.Pictures i.
Proof.
  unfold TacitImage.fillInfo.
  repeat match goal with |- context [if ?b then _ else _] => destruct b end;
    by rewrite ?CreateAltPictureDDS2DMipmaps_Pictures.
Qed.

Lemma Load_Pictures_atTime (IsLoaded : TacitImage.t -> bool) (wld : World)
    (time cores : Z) (i : TacitImage.t) :
  TacitImage.Pictures (snd (TacitImage.Load IsLoaded (atTime time cores wld) i))
  = TacitImage.Pictures (snd (TacitImage.Load IsLoaded wld i)).
Proof.
  unfold TacitImage.Load.
  destruct (IsLoaded i); [done|].
  destruct (tFileType_eqb (TacitImage.Filetype i) Unknown); [done|].
  change (TacitImage.decode (atTime time cores wld) i) with (TacitImage.decode wld i).
  destruct (TacitImage.decode wld i) as [[success bitdepth] j].
  change (TacitImage.ConvertTexture2DToPicture (atTime time cores wld) j)
    with (TacitImage.ConvertTexture2DToPicture wld j).
  destruct success; cbn [snd]; [|done].
  by rewrite !fillInfo_Pictures.
Qed.

Lemma LoadFile_primary_atTime (IsLoaded : TacitImage.t -> bool) (wld : World)
    (time cores : Z) (name : string) (i : TacitImage.t) :
  TacitImage.GetPrimaryPicture (snd (TacitImage.LoadFile IsLoaded (atTime time cores wld) name i))
  = TacitImage.GetPrimaryPicture (snd (TacitImage.LoadFile IsLoaded wld name i)).
Proof.
  unfold TacitImage.LoadFile, TacitImage.GetPrimaryPicture, TacitImage.First.
  destruct (String.eqb name ""); [done|].
  change (tGetFileInfo (atTime time cores wld)) with (tGetFileInfo wld).
  change (tGetFileType (atTime time cores wld)) with (tGetFileType wld).
  by rewrite Load_Pictures_atTime.
Qed.

Section CacheKey.

Variable IsLoaded : TacitImage.t -> bool.
Variables ThumbWidth ThumbHeight : Z.
Variable lib : Tacent.

Local Abbreviation GenerateThumbnail :=
  (TacitImage.GenerateThumbnail IsLoaded ThumbWidth ThumbHeight lib).
Local Abbreviation thumbHash := (TacitImage.thumbHash ThumbWidth ThumbHeight lib).
Local Abbreviation hashFile := (TacitImage.hashFile ThumbWidth ThumbHeight lib).

Lemma thumbHash_digestOver (wld : World) (name : string) :
  thumbHash wld name
  = digestOver lib 1 name
      (FileSize (snd (tGetFileInfo wld name)))
      (CreationTime (snd (tGetFileInfo wld name)))
      (ModificationTime (snd (tGetFileInfo wld name)))
      ThumbWidth ThumbHeight.
Proof. reflexivity. Qed.

Lemma thumbHash_same_identity (w1 w2 : World) (name : string) :
  FileSize (snd (tGetFileInfo w1 name)) = FileSize (snd (tGetFileInfo w2 name)) ->
  CreationTime (snd (tGetFileInfo w1 name)) = CreationTime (snd (tGetFileInfo w2 name)) ->
  ModificationTime (snd (tGetFileInfo w1 name))
  = ModificationTime (snd (tGetFileInfo w2 name)) ->
  thumbHash w1 name = thumbHash w2 name
  /\ forall cacheDir, hashFile w1 cacheDir name = hashFile w2 cacheDir name.
Proof.
  intros Hs Hc Hm.
  assert (thumbHash w1 name = thumbHash w2 name) as Hh
    by (rewrite !thumbHash_digestOver; congruence).
  split; [done|]. intros cacheDir. unfold TacitImage.hashFile. by rewrite Hh.
Qed.

Lemma GenerateThumbnail_atTime (wld : World) (time cores : Z) (cacheDir : string)
    (files : gmap string (list Z)) (i1 i2 : TacitImage.t) :
  TacitImage.Filename i1 = TacitImage.Filename i2 ->
  TacitImage.Filetype i1 = TacitImage.Filetype i2 ->
  tPicture.IsValid (TacitImage.ThumbnailPicture i1) = false ->
  TacitImage.ThumbnailPicture i2 = TacitImage.ThumbnailPicture i1 ->
  GenerateThumbnail wld cacheDir files i1
  = GenerateThumbnail (atTime time cores wld) cacheDir files i2.
Proof.
  intros Hname Htype Hinv Hthumb.
  unfold TacitImage.GenerateThumbnail.
  rewrite Hthumb, Hinv, <- Hname, <- Htype.
  change (TacitImage.hashFile ThumbWidth ThumbHeight lib (atTime time cores wld))
    with (TacitImage.hashFile ThumbWidth ThumbHeight lib wld).
  change (glfwCreateWindow (atTime time cores wld)) with (glfwCreateWindow wld).
  by rewrite LoadFile_primary_atTime.
Qed.

Lemma GenerateThumbnail_wrote (wld : World) (cacheDir : string)
    (files files' : gmap string (list Z)) (i : TacitImage.t) (thumbnail : tPicture.t) :
  GenerateThumbnail wld cacheDir files i = TacitImage.Finished thumbnail files' ->
  files' <> files ->
  files !! hashFile wld cacheDir (TacitImage.Filename i) = None
  /\ files' = <[hashFile wld cacheDir (TacitImage.Filename i) := tPicture_Save lib thumbnail]> files.
Proof.
  unfold TacitImage.GenerateThumbnail.
  destruct (tPicture.IsValid (TacitImage.ThumbnailPicture i)); [by intros [= _ ->]|].
  destruct (files !! hashFile wld cacheDir (TacitImage.Filename i)); [by intros [= _ ->]|].
  destruct (_ && _); [by intros [= _ ->]|].
  destruct (TacitImage.GetPrimaryPicture _) as [srcPic|]; [|done].
  by intros [= <- <-].
Qed.


(** C6: the digest that names the cache file is the digest over the format
    version constant 1, the path, the file size, the creation time, the
    modification time and the target width and height, and nothing else: two
    computations for which these agree give the same digest and the same file
    name, whatever else differs.  Two runs of the worker on the same files
    give the same thumbnail and the same cache files, whichever aggregate they
    run for and whenever they run; and once a run has written the cache file,
    a later run for the same unmodified file reads that file and leaves the
    cache as it is. *)
Theorem cache_key_determinism :
  (forall wld name,
     thumbHash wld name
     = digestOver lib 1 name
         (FileSize (snd (tGetFileInfo wld name)))
         (CreationTime (snd (tGetFileInfo wld name)))
         (ModificationTime (snd (tGetFileInfo wld name)))
         ThumbWidth ThumbHeight)
  /\ (forall w1 w2 name,
        FileSize (snd (tGetFileInfo w1 name)) = FileSize (snd (tGetFileInfo w2 name)) ->
        CreationTime (snd (tGetFileInfo w1 name))
        = CreationTime (snd (tGetFileInfo w2 name)) ->
        ModificationTime (snd (tGetFileInfo w1 name))
        = ModificationTime (snd (tGetFileInfo w2 name)) ->
        thumbHash w1 name = thumbHash w2 name
        /\ forall cacheDir, hashFile w1 cacheDir name = hashFile w2 cacheDir name)
  /\ (forall wld time cores cacheDir files i1 i2,
        TacitImage.Filename i1 = TacitImage.Filename i2 ->
        TacitImage.Filetype i1 = TacitImage.Filetype i2 ->
        tPicture.IsValid (TacitImage.ThumbnailPicture i1) = false ->
        TacitImage.ThumbnailPicture i2 = TacitImage.ThumbnailPicture i1 ->
        GenerateThumbnail wld cacheDir files i1
        = GenerateThumbnail (atTime time cores wld) cacheDir files i2)
  /\ (forall w1 w2 cacheDir files files' i1 i2 thumbnail,
        GenerateThumbnail w1 cacheDir files i1 = TacitImage.Finished thumbnail files' ->
        files' <> files ->
        FileSize (snd (tGetFileInfo w1 (TacitImage.Filename i1)))
        = FileSize (snd (tGetFileInfo w2 (TacitImage.Filename i1))) ->
        CreationTime (snd (tGetFileInfo w1 (TacitImage.Filename i1)))
        = CreationTime (snd (tGetFileInfo w2 (TacitImage.Filename i1))) ->
        ModificationTime (snd (tGetFileInfo w1 (TacitImage.Filename i1)))
        = ModificationTime (snd (tGetFileInfo w2 (TacitImage.Filename i1))) ->
        TacitImage.Filename i2 = TacitImage.Filename i1 ->
        tPicture.IsValid (TacitImage.ThumbnailPicture i2) = false ->
        files' !! hashFile w1 cacheDir (TacitImage.Filename i1)
        = Some (tPicture_Save lib thumbnail)
        /\ (forall other,
              other <> hashFile w1 cacheDir (TacitImage.Filename i1) ->
              files' !! other = files !! other)
        /\ GenerateThumbnail w2 cacheDir files' i2
           = TacitImage.Finished
               (tPicture_LoadChunk lib (tPicture_Save lib thumbnail)) files').
Proof.
  split; [exact thumbHash_digestOver|]. split; [exact thumbHash_same_identity|].
  split; [exact GenerateThumbnail_atTime|].
  intros w1 w2 cacheDir files files' i1 i2 thumbnail Hrun Hwrote Hs Hc Hm Hname Hinv.
  destruct (GenerateThumbnail_wrote _ _ _ _ _ _ Hrun Hwrote) as [Hmiss ->].
  split; [by rewrite lookup_insert_eq|]. split; [by intros other ?; rewrite lookup_insert_ne|].
  unfold TacitImage.GenerateThumbnail at 1. rewrite Hinv, Hname.
  destruct (thumbHash_same_identity w1 w2 _ Hs Hc Hm) as [_ <-].
  by rewrite lookup_insert_eq.
Qed.

End CacheKey.

Lemma cache_key_determinism_witness :
  let i1 := TacitImage.CreateFrom Sample.world "photo.tga" in
  let i2 := TacitImage.set_LoadedTime 5 (TacitImage.CreateFrom Sample.worldLater "photo.tga") in
  let file := TacitImage.hashFile 4 4 Sample.lib Sample.world "cache/" "photo.tga" in
  let thumbnail := TacitImage.makeThumbnail 4 4 Sample.lib Sample.photo in
  let files' : gmap string (list Z) := <[file := tPicture_Save Sample.lib thumbnail]> ∅ in
  TacitImage.GenerateThumbnail TacitImage.IsLoaded 4 4 Sample.lib Sample.world "cache/" ∅ i1
  = TacitImage.Finished thumbnail files'
  /\ files' !! file = Some (tPicture_Save Sample.lib thumbnail)
  /\ TacitImage.GenerateThumbnail TacitImage.IsLoaded 4 4 Sample.lib Sample.worldLater
       "cache/" files' i2
     = TacitImage.Finished
         (tPicture_LoadChunk Sample.lib (tPicture_Save Sample.lib thumbnail)) files'.
Proof.
  intros i1 i2 file thumbnail files'.
  assert (TacitImage.GenerateThumbnail TacitImage.IsLoaded 4 4 Sample.lib Sample.world
            "cache/" ∅ i1 = TacitImage.Finished thumbnail files') as Hrun by reflexivity.
  destruct (cache_key_determinism TacitImage.IsLoaded 4 4 Sample.lib) as (_ & _ & _ & Hlater).
  destruct (Hlater Sample.world Sample.worldLater "cache/" ∅ files' i1 i2 thumbnail Hrun)
    as (Hfile & _ & Hagain); try reflexivity.
  - apply insert_non_empty.
  - split; [exact Hrun|]. split; [exact Hfile|exact Hagain].
Defined.

(** ** A thumbnail request for a file that cannot be loaded *)

(** When neither DDS decoder accepts the file, or its type is unknown, the
    private aggregate of the worker holds no picture and the worker stops at
    [tAssert(srcPic)]. *)
Lemma GenerateThumbnail_failed_load
    (IsLoaded : TacitImage.t -> bool) (ThumbWidth ThumbHeight : Z) (lib : Tacent)
    (wld : World) (cacheDir : string) (files : gmap string (list Z)) (i : TacitImage.t) :
  tPicture.IsValid (TacitImage.ThumbnailPicture i) = false ->
  files !! TacitImage.hashFile ThumbWidth ThumbHeight lib wld cacheDir (TacitImage.Filename i)
  = None ->
  (TacitImage.Filetype i = DDS -> glfwCreateWindow wld = true) ->
  (forall j, TacitImage.Pictures j = [] -> IsLoaded j = false) ->
  tGetFileType wld (TacitImage.Filename i) = Unknown
  \/ (tGetFileType wld (TacitImage.Filename i) = DDS
      /\ tCubemap_Load wld (TacitImage.Filename i) = Failed
      /\ tTexture_Load wld (TacitImage.Filename i) = Failed) ->
  TacitImage.GenerateThumbnail IsLoaded ThumbWidth ThumbHeight lib wld cacheDir files i
  = TacitImage.AssertFailed.
Proof.
  intros Hinv Hmiss Hctx Hnot Hfail. unfold TacitImage.GenerateThumbnail.
  rewrite Hinv, Hmiss.
  assert (tFileType_eqb (TacitImage.Filetype i) DDS && negb (glfwCreateWindow wld) = false)
    as ->.
  { destruct (TacitImage.Filetype i); try done. by rewrite Hctx. }
  unfold TacitImage.LoadFile.
  destruct (String.eqb (TacitImage.Filename i) ""); [done|].
  unfold TacitImage.Load. rewrite Hnot by done.
  cbn [TacitImage.set_identity TacitImage.Filetype].
  destruct Hfail as [->|(-> & Hcube & Htex)]; [done|].
  cbn [tFileType_eqb]. unfold TacitImage.decode.
  cbn [TacitImage.set_identity TacitImage.Filetype TacitImage.Filename tFileType_eqb].
  rewrite Hcube.
  cbn [TacitImage.set_DDSCubemap TacitImage.set_identity TacitImage.Filename]. rewrite Htex.
  done.
Qed.

(** C9, at the failing input: a thumbnail is requested for a DDS path that
    does not exist; the request is admitted, and the worker, instead of
    returning with the thumbnail left invalid, stops at the failed
    [tAssert(srcPic)]: the process is aborted with the request still marked
    running. *)
Theorem missing_dds_thumbnail_aborts :
  let p := Sample.run [CallRequestThumbnail 0; WorkerReturns 0]
             (Sample.start ["missing.dds"]) in
  fst (tGetFileInfo Sample.world "missing.dds") = false
  /\ TacitImage.GenerateThumbnail TacitImage.IsLoaded 4 4 Sample.lib Sample.world "cache/" ∅
       (TacitImage.CreateFrom Sample.world "missing.dds")
     = TacitImage.AssertFailed
  /\ Aborted p = true
  /\ (TacitImage.ThumbnailThreadRunning <$> Images p !! 0%nat) = Some true.
Proof. vm_compute. by repeat split. Qed.

(** For a raster path that does not exist the scenario runs as described:
    the worker returns, the poll observes it and answers 0, the aggregate is
    requested, not running and without thumbnail, and [UnrequestThumbnail]
    resets the request. *)
Lemma missing_raster_thumbnail_scenario :
  let p := Sample.run [CallRequestThumbnail 0; WorkerReturns 0; CallBindThumbnail 0]
             (Sample.start ["missing.tga"]) in
  let i := default TacitImage.Create (Images p !! 0%nat) in
  Aborted p = false
  /\ TacitImage.ThumbnailRequested i = true
  /\ TacitImage.ThumbnailThreadRunning i = false
  /\ tPicture.IsValid (TacitImage.ThumbnailPicture i) = false
  /\ fst (fst (TacitImage.BindThumbnail Sample.world (ThumbnailNumThreadsRunning p) i)) = 0
  /\ ThumbnailNumThreadsRunning p = 0
  /\ TacitImage.ThumbnailRequested (TacitImage.UnrequestThumbnail i) = false.
Proof. vm_compute. by repeat split. Qed.

(** * Further properties *)

(** ** The mip chain of a single-surface DDS source *)


Lemma decode_texture2D (wld : World) (i : TacitImage.t) (tex : tTexture.t) :
  TacitImage.Filetype i = DDS ->
  tCubemap_Load wld (TacitImage.Filename i) = Failed ->
  tTexture_Load wld (TacitImage.Filename i) = Loaded tex ->
  exists bitdepth,
    TacitImage.decode wld i
    = (true, bitdepth,
       TacitImage.set_DDSTexture2D tex (TacitImage.set_DDSCubemap tCubemap.Clear i)).
Proof.
  intros Hft Hcube Htex. unfold TacitImage.decode. rewrite Hft, Hcube.
  cbn [tFileType_eqb TacitImage.set_DDSCubemap TacitImage.Filename]. rewrite Htex.
  by eexists.
Qed.

Lemma Load_texture2D (IsLoaded : TacitImage.t -> bool) (wld : World) (i : TacitImage.t)
    (tex : tTexture.t) :
  IsLoaded i = false ->
  TacitImage.Filetype i = DDS ->
  tCubemap_Load wld (TacitImage.Filename i) = Failed ->
  tTexture_Load wld (TacitImage.Filename i) = Loaded tex ->
  exists bitdepth,
    TacitImage.Load IsLoaded wld i
    = (true,
       TacitImage.fillInfo wld bitdepth
         (if tTexture.IsValid tex
          then snd (TacitImage.ConvertTexture2DToPicture wld
                      (TacitImage.set_DDSTexture2D tex
                         (TacitImage.set_DDSCubemap tCubemap.Clear i)))
          else TacitImage.set_DDSTexture2D tex (TacitImage.set_DDSCubemap tCubemap.Clear i))).
Proof.
  intros Hnot Hft Hcube Htex.
  destruct (decode_texture2D wld i tex Hft Hcube Htex) as [bitdepth Hdec].
  exists bitdepth. unfold TacitImage.Load. rewrite Hnot, Hft, Hdec.
  cbn [tFileType_eqb TacitImage.set_DDSTexture2D TacitImage.set_DDSCubemap
       TacitImage.Filetype TacitImage.DDSCubemap TacitImage.DDSTexture2D].
  by rewrite Hft.
Qed.

Lemma CreateAltPictureDDS2DMipmaps_Info (i : TacitImage.t) :
  TacitImage.Info (TacitImage.CreateAltPictureDDS2DMipmaps i) = TacitImage.Info i.
Proof.
  unfold TacitImage.CreateAltPictureDDS2DMipmaps.
  by destruct (foldl _ _ _) as [alt originX].
Qed.

(** The info record that [Load] leaves: the alt composite is built after the
    record has been filled in and does not touch it. *)
Lemma fillInfo_Info (wld : World) (bitdepth : Z) (i : TacitImage.t) :
  let j := TacitImage.set_LoadedTime (tGetTime wld) i in
  TacitImage.Info (TacitImage.fillInfo wld bitdepth i)
  = TacitImage.mkInfo (TacitImage.GetWidth j) (TacitImage.GetHeight j)
      (TacitImage.PixelFormat (TacitImage.Info (TacitImage.fillInfo wld bitdepth i)))
      bitdepth (TacitImage.IsOpaque j) (tGetFileSize wld (TacitImage.Filename i))
      (TacitImage.GetMemSizeBytes j) (Z.of_nat (length (TacitImage.Pictures i))).
Proof.
  unfold TacitImage.fillInfo.
  repeat match goal with |- context [if ?b then _ else _] => destruct b end;
    by rewrite ?CreateAltPictureDDS2DMipmaps_Info.
Qed.

Lemma fillInfo_DDSTexture2D (wld : World) (bitdepth : Z) (i : TacitImage.t) :
  TacitImage.DDSTexture2D (TacitImage.fillInfo wld bitdepth i) = TacitImage.DDSTexture2D i.
Proof.
  unfold TacitImage.fillInfo, TacitImage.CreateAltPictureDDS2DMipmaps.
  repeat match goal with |- context [if ?b then _ else _] => destruct b end;
    try done.
  all: by destruct (foldl _ _ _) as [alt originX].
Qed.

Lemma Load_texture2D_Pictures (IsLoaded : TacitImage.t -> bool) (wld : World)
    (i : TacitImage.t) (tex : tTexture.t) :
  IsLoaded i = false ->
  TacitImage.Pictures i = [] ->
  TacitImage.Filetype i = DDS ->
  tCubemap_Load wld (TacitImage.Filename i) = Failed ->
  tTexture_Load wld (TacitImage.Filename i) = Loaded tex ->
  tTexture.IsValid tex = true ->
  let r := TacitImage.Load IsLoaded wld i in
  fst r = true
  /\ TacitImage.DDSTexture2D (snd r) = tex
  /\ TacitImage.Mipmaps (TacitImage.Info (snd r))
     = Z.of_nat (length (TacitImage.Pictures (snd r)))
  /\ TacitImage.Pictures (snd r)
     = if glGenTextures wld =? 0 then []
       else imap (fun level layer =>
                    tPicture.ofBuffer
                      (TacitImage.mipDim (tTexture.GetWidth tex) level)
                      (TacitImage.mipDim (tTexture.GetHeight tex) level)
                      (tLayer.Readback layer))
                 (tTexture.GetLayers tex).
Proof.
  intros Hnot Hp Hft Hcube Htex Hvalid r.
  destruct (Load_texture2D IsLoaded wld i tex Hnot Hft Hcube Htex) as [bitdepth Hload].
  subst r. rewrite Hload, Hvalid. cbn [fst snd].
  split; [done|].
  rewrite fillInfo_Info, fillInfo_Pictures. cbn [TacitImage.Mipmaps].
  unfold TacitImage.ConvertTexture2DToPicture.
  cbn [TacitImage.set_DDSTexture2D TacitImage.set_DDSCubemap TacitImage.DDSTexture2D
       TacitImage.Pictures].
  rewrite Hvalid, Hp. cbn [negb orb length Z.of_nat Z.leb Z.compare app].
  rewrite fillInfo_DDSTexture2D.
  by destruct (glGenTextures wld =? 0).
Qed.




(** X2: when no texture name can be generated for the decode, loading a
    single-surface DDS source still reports success, but the aggregate holds
    the container without a single picture: the mip chain is empty, the info
    record announces zero mipmaps, and width and height read as zero on an
    aggregate that does not show an alt picture. *)
Theorem texture2D_load_without_decode_target
    (IsLoaded : TacitImage.t -> bool) (wld : World) (i : TacitImage.t) (tex : tTexture.t)
    (Hnot : IsLoaded i = false)
    (Hempty : TacitImage.Pictures i = [])
    (Hdds : TacitImage.Filetype i = DDS)
    (Hcube : tCubemap_Load wld (TacitImage.Filename i) = Failed)
    (Htex : tTexture_Load wld (TacitImage.Filename i) = Loaded tex)
    (Hvalid : tTexture.IsValid tex = true)
    (Hgl : glGenTextures wld = 0) :
  let r := TacitImage.Load IsLoaded wld i in
  fst r = true
  /\ TacitImage.DDSTexture2D (snd r) = tex
  /\ TacitImage.Pictures (snd r) = []
  /\ TacitImage.GetPrimaryPicture (snd r) = None
  /\ TacitImage.Mipmaps (TacitImage.Info (snd r)) = 0.
Proof.
  intros r.
  destruct (Load_texture2D_Pictures IsLoaded wld i tex Hnot Hempty Hdds Hcube Htex Hvalid)
    as (Hok & Hkeep & Hmips & Hchain).
  fold r in Hok, Hkeep, Hmips, Hchain.
  rewrite Hgl in Hchain. cbn in Hchain. rewrite Hchain in Hmips.
  unfold TacitImage.GetPrimaryPicture, TacitImage.First. rewrite Hchain.
  by repeat split.
Qed.

Lemma texture2D_load_without_decode_target_witness :
  let wld := mkWorld (tGetFileType Sample.world) (tGetFileInfo Sample.world)
               (tGetFileSize Sample.world) 77 4 (tCubemap_Load Sample.world)
               (tTexture_Load Sample.world) (tPicture_Load Sample.world) 0 true in
  let r := TacitImage.Load TacitImage.IsLoaded wld (TacitImage.CreateFrom wld "mips.dds") in
  fst r = true
  /\ TacitImage.DDSTexture2D (snd r) = Sample.mips
  /\ TacitImage.Pictures (snd r) = []
  /\ TacitImage.GetPrimaryPicture (snd r) = None
  /\ TacitImage.Mipmaps (TacitImage.Info (snd r)) = 0.
Proof.
  intros wld.
  exact (texture2D_load_without_decode_target TacitImage.IsLoaded wld
           (TacitImage.CreateFrom wld "mips.dds") Sample.mips
           eq_refl eq_refl eq_refl eq_refl eq_refl eq_refl eq_refl).
Defined.

(** ** The mip strip *)

Lemma stripWidth_app (a b : list tPicture.t) :
  stripWidth (a ++ b) = stripWidth a + stripWidth b.
Proof. induction a as [|p a IH]; cbn [app stripWidth]; lia. Qed.

Lemma stripWidth_nonneg (pics : list tPicture.t) :
  Forall wfPic pics -> 0 <= stripWidth pics.
Proof.
  induction 1 as [|p pics [Hw _] _ IH]; cbn [stripWidth]; unfold tPicture.GetWidth; lia.
Qed.

Lemma stripPixel_app (a b : list tPicture.t) (x y : Z) :
  Forall wfPic a -> 0 <= x ->
  stripPixel (a ++ b) x y
  = if x <? stripWidth a then stripPixel a x y else stripPixel b (x - stripWidth a) y.
Proof.
  intros Hwf. revert x. induction Hwf as [|p a [Hw _] Hwf IH]; intros x Hx.
  - cbn [app stripPixel stripWidth]. rewrite (proj2 (Z.ltb_ge _ _)) by lia. by rewrite Z.sub_0_r.
  - cbn [app stripPixel stripWidth]. pose proof (stripWidth_nonneg a Hwf) as Ha.
    unfold tPicture.GetWidth in *.
    destruct (Z.ltb_spec x (tPicture.Width p)) as [Hlt|Hge].
    + by rewrite (proj2 (Z.ltb_lt x (tPicture.Width p + stripWidth a))) by lia.
    + rewrite IH by lia.
      replace (x - tPicture.Width p - stripWidth a) with (x - (tPicture.Width p + stripWidth a))
        by lia.
      destruct (Z.ltb_spec (x - tPicture.Width p) (stripWidth a));
        destruct (Z.ltb_spec x (tPicture.Width p + stripWidth a)); try lia; done.
Qed.

Lemma foldl_stripWidth (pics : list tPicture.t) (n : Z) :
  foldl (fun wd layer => wd + tPicture.GetWidth layer) n pics = n + stripWidth pics.
Proof.
  revert n. induction pics as [|p pics IH]; intros n; cbn [foldl stripWidth]; [lia|].
  rewrite IH. lia.
Qed.

(** The loop of [CreateAltPictureDDS2DMipmaps] over a chain that fits into
    the destination. *)
Lemma strip_loop (W H : Z) (pics : list tPicture.t) :
  0 <= W -> 0 <= H ->
  Forall wfPic pics ->
  Forall (fun pic => tPicture.GetHeight pic <= H) pics ->
  stripWidth pics <= W ->
  let '(alt, originX) :=
    foldl (fun '(alt, originX) layer =>
             (TacitImage.copyInto alt originX 0 layer, originX + tPicture.GetWidth layer))
          (tPicture.Set_ W H transparent, 0) pics in
  originX = stripWidth pics
  /\ wfPic alt /\ tPicture.Width alt = W /\ tPicture.Height alt = H
  /\ forall X Y, 0 <= X < W -> 0 <= Y < H ->
       tPicture.GetPixel alt X Y
       = if X <? stripWidth pics then stripPixel pics X Y else transparent.
Proof.
  intros HW HH. induction pics as [|p pics IH] using rev_ind; intros Hwf Hht Hfit.
  - cbn [foldl stripWidth]. destruct (Set_wf W H transparent HW HH) as [Hset Hpix].
    split; [done|]. split; [done|]. split; [done|]. split; [done|].
    intros X Y HX HY. rewrite Hpix by done.
    by rewrite (proj2 (Z.ltb_ge _ _)) by lia.
  - apply Forall_app in Hwf as [Hwf Hp]. apply Forall_app in Hht as [Hht Hph].
    rewrite Forall_singleton in Hp, Hph.
    rewrite stripWidth_app in Hfit. cbn [stripWidth] in Hfit.
    destruct Hp as (Hpw & Hpp & _). unfold tPicture.GetWidth, tPicture.GetHeight in *.
    pose proof (stripWidth_nonneg pics Hwf) as Hnn.
    rewrite foldl_app. cbn [foldl].
    specialize (IH Hwf Hht ltac:(lia)).
    destruct (foldl _ _ pics) as [alt originX].
    destruct IH as (-> & Halt & Hw & Hh & Hpix).
    destruct (copyInto_pixels p alt (stripWidth pics) 0 Halt) as (Hwf' & Hw' & Hh' & Hpix');
      [lia..|].
    split; [rewrite stripWidth_app; cbn [stripWidth]; unfold tPicture.GetWidth; lia|].
    split; [done|]. split; [lia|]. split; [lia|].
    intros X Y HX HY.
    rewrite Hpix' by lia. rewrite stripPixel_app by (done || lia).
    rewrite stripWidth_app. cbn [stripWidth stripPixel]. unfold tPicture.GetWidth, tPicture.GetHeight.
    rewrite Hpix by lia. rewrite Z.add_0_r, Z.sub_0_r.
    case_bool_decide as Hin.
    + rewrite (proj2 (Z.ltb_lt _ _)) by lia. rewrite (proj2 (Z.ltb_ge _ _)) by lia.
      by rewrite !(proj2 (Z.ltb_lt _ _)) by lia.
    + destruct (Z.ltb_spec X (stripWidth pics)) as [Hlt|Hge].
      * by rewrite (proj2 (Z.ltb_lt _ _)) by lia.
      * destruct (Z.ltb_spec X (stripWidth pics + tPicture.Width p)) as [Hlt2|Hge2]; [|done].
        rewrite (proj2 (Z.ltb_lt _ _)) by lia. by rewrite (proj2 (Z.ltb_ge _ _)) by lia.
Qed.

Lemma GetHeight_nonneg (i : TacitImage.t) : 0 <= TacitImage.GetHeight i.
Proof.
  unfold TacitImage.GetHeight, tPicture.IsValid, tPicture.GetHeight.
  destruct (TacitImage.AltPictureEnabled i);
    repeat match goal with
           | |- context [?a <? ?b] => destruct (Z.ltb_spec a b)
           | |- context [match ?o with Some _ => _ | None => _ end] => destruct o
           end; cbn; lia.
Qed.

(** X3: [CreateAltPictureDDS2DMipmaps] lays the pictures of the chain out as
    a strip.  On a chain of well-formed pictures none of which is taller than
    the height the aggregate reports, the alt buffer is as wide as all levels
    together and as tall as the aggregate; level [k] starts at the column
    where the widths of the levels before it end, stands on row 0, and is
    copied pixel for pixel; every pixel no level covers is transparent. *)
Theorem mip_strip_layout (i : TacitImage.t)
    (Hwf : Forall wfPic (TacitImage.Pictures i))
    (Hfit : Forall (fun pic => tPicture.GetHeight pic <= TacitImage.GetHeight i)
              (TacitImage.Pictures i)) :
  let pics := TacitImage.Pictures i in
  let alt := TacitImage.AltPicture (TacitImage.CreateAltPictureDDS2DMipmaps i) in
  tPicture.GetWidth alt = stripWidth pics
  /\ tPicture.GetHeight alt = TacitImage.GetHeight i
  /\ wfPic alt
  /\ forall x y, 0 <= x < stripWidth pics -> 0 <= y < TacitImage.GetHeight i ->
       tPicture.GetPixel alt x y = stripPixel pics x y.
Proof.
  intros pics alt. subst alt. unfold TacitImage.CreateAltPictureDDS2DMipmaps.
  rewrite foldl_stripWidth, Z.add_0_l. fold pics.
  pose proof (strip_loop (stripWidth pics) (TacitImage.GetHeight i) pics
                (stripWidth_nonneg pics Hwf) (GetHeight_nonneg i) Hwf Hfit ltac:(lia)) as Hloop.
  destruct (foldl _ _ pics) as [alt originX].
  destruct Hloop as (_ & Halt & Hw & Hh & Hpix).
  cbn [TacitImage.set_AltPicture TacitImage.AltPicture].
  split; [done|]. split; [done|]. split; [done|].
  intros x y Hx Hy. rewrite Hpix by done. by rewrite (proj2 (Z.ltb_lt _ _)) by lia.
Qed.

Lemma mip_strip_layout_witness :
  let i := snd (Sample.load "mips.dds") in
  let alt := TacitImage.AltPicture i in
  tPicture.GetWidth alt = 3 /\ tPicture.GetHeight alt = 2
  /\ tPicture.GetPixel alt 1 1 = Sample.glass
  /\ tPicture.GetPixel alt 2 0 = Sample.red
  /\ tPicture.GetPixel alt 2 1 = transparent.
Proof.
  intros i alt.
  assert (Forall wfPic (TacitImage.Pictures i)) as Hwf.
  { let l := eval vm_compute in (TacitImage.Pictures i) in
    change (TacitImage.Pictures i) with l.
    repeat constructor; cbn; lia. }
  assert (Forall (fun pic => tPicture.GetHeight pic <= TacitImage.GetHeight i)
            (TacitImage.Pictures i)) as Hfit.
  { let l := eval vm_compute in (TacitImage.Pictures i) in
    change (TacitImage.Pictures i) with l.
    let h := eval vm_compute in (TacitImage.GetHeight i) in
    change (TacitImage.GetHeight i) with h.
    repeat constructor; cbn; lia. }
  pose proof (mip_strip_layout i Hwf Hfit) as H. cbv zeta in H.
  change (TacitImage.AltPicture (TacitImage.CreateAltPictureDDS2DMipmaps i)) with alt in H.
  destruct H as (Hw & Hh & _ & Hpix).
  change (stripWidth (TacitImage.Pictures i)) with 3 in Hw, Hpix.
  change (TacitImage.GetHeight i) with 2 in Hh, Hpix.
  split; [exact Hw|]. split; [exact Hh|].
  split; [exact (Hpix 1 1 ltac:(lia) ltac:(lia))|].
  split; [exact (Hpix 2 0 ltac:(lia) ltac:(lia))|].
  exact (Hpix 2 1 ltac:(lia) ltac:(lia)).
Defined.

(** ** The memory size in the info record *)

Lemma foldl_chainBytes (pics : list tPicture.t) (n : Z) :
  foldl (fun n pic => n + tPicture.GetNumPixels pic * 4) n pics = n + chainBytes pics.
Proof.
  revert n. induction pics as [|p pics IH]; intros n; cbn [foldl chainBytes]; [lia|].
  rewrite IH. lia.
Qed.

Lemma decode_AltPicture (wld : World) (i : TacitImage.t) :
  TacitImage.AltPicture (snd (TacitImage.decode wld i)) = TacitImage.AltPicture i.
Proof.
  unfold TacitImage.decode.
  repeat match goal with
         | |- context [if ?b then _ else _] => destruct b
         | |- context [match ?o with Loaded _ => _ | Failed => _ | Threw => _ end] => destruct o
         end; done.
Qed.

Lemma convert_AltPicture (wld : World) (i : TacitImage.t) :
  TacitImage.AltPicture (snd (TacitImage.ConvertCubemapToPicture i)) = TacitImage.AltPicture i
  /\ TacitImage.AltPicture (snd (TacitImage.ConvertTexture2DToPicture wld i))
     = TacitImage.AltPicture i.
Proof.
  unfold TacitImage.ConvertCubemapToPicture, TacitImage.ConvertTexture2DToPicture.
  split; repeat match goal with |- context [if ?b then _ else _] => destruct b end; done.
Qed.

(** A successful [Load] of an aggregate that was not loaded ends in the
    [if (success)] block, run on an aggregate with the alt buffer it had. *)
Lemma Load_success_fillInfo (IsLoaded : TacitImage.t -> bool) (wld : World)
    (i : TacitImage.t) :
  IsLoaded i = false ->
  fst (TacitImage.Load IsLoaded wld i) = true ->
  exists bitdepth j,
    snd (TacitImage.Load IsLoaded wld i) = TacitImage.fillInfo wld bitdepth j
    /\ TacitImage.AltPicture j = TacitImage.AltPicture i.
Proof.
  intros Hnot. unfold TacitImage.Load. rewrite Hnot.
  destruct (tFileType_eqb (TacitImage.Filetype i) Unknown); [done|].
  pose proof (decode_AltPicture wld i) as Hdec.
  destruct (TacitImage.decode wld i) as [[success bitdepth] j]. cbn [snd] in Hdec.
  destruct success; [|done]. intros _. cbn [snd].
  eexists _, _. split; [done|].
  destruct (convert_AltPicture wld j) as [Hc Ht].
  repeat match goal with |- context [if ?b then _ else _] => destruct b end; congruence.
Qed.

(** X4: the memory size that a successful [Load] records in the info record
    counts the pictures of the primary chain only, four bytes a pixel: the
    alt composite that the same [Load] builds afterwards is not in it, while
    [GetMemSizeBytes], asked after the load, does count it. *)
Theorem info_memory_excludes_alt
    (IsLoaded : TacitImage.t -> bool) (wld : World) (i : TacitImage.t)
    (Hnot : IsLoaded i = false)
    (Hnoalt : tPicture.IsValid (TacitImage.AltPicture i) = false)
    (Hok : fst (TacitImage.Load IsLoaded wld i) = true) :
  let i' := snd (TacitImage.Load IsLoaded wld i) in
  TacitImage.MemSizeBytes (TacitImage.Info i') = chainBytes (TacitImage.Pictures i')
  /\ TacitImage.GetMemSizeBytes i'
     = TacitImage.MemSizeBytes (TacitImage.Info i')
       + (if tPicture.IsValid (TacitImage.AltPicture i')
          then tPicture.GetNumPixels (TacitImage.AltPicture i') * 4 else 0).
Proof.
  intros i'. subst i'.
  destruct (Load_success_fillInfo IsLoaded wld i Hnot Hok) as (bitdepth & j & -> & Halt).
  assert (TacitImage.MemSizeBytes (TacitImage.Info (TacitImage.fillInfo wld bitdepth j))
          = chainBytes (TacitImage.Pictures (TacitImage.fillInfo wld bitdepth j))) as Hmem.
  { rewrite fillInfo_Info, fillInfo_Pictures. cbn [TacitImage.MemSizeBytes].
    unfold TacitImage.GetMemSizeBytes.
    cbn [TacitImage.set_LoadedTime TacitImage.Pictures TacitImage.AltPicture].
    rewrite Halt, Hnoalt, foldl_chainBytes. lia. }
  split; [done|].
  rewrite Hmem. unfold TacitImage.GetMemSizeBytes. by rewrite foldl_chainBytes.
Qed.

Lemma info_memory_excludes_alt_witness :
  let i' := snd (Sample.load "sky.dds") in
  TacitImage.MemSizeBytes (TacitImage.Info i') = 24
  /\ TacitImage.GetMemSizeBytes i' = 24 + 48.
Proof.
  pose proof (info_memory_excludes_alt TacitImage.IsLoaded Sample.world
                (TacitImage.CreateFrom Sample.world "sky.dds") eq_refl eq_refl eq_refl) as H.
  cbv zeta in H. destruct H as [Hinfo Hget].
  split; [exact Hinfo|exact Hget].
Defined.

(** ** Loading again after [Unload] *)

(** [Load] on an aggregate that is not loaded reads neither the info record
    nor the loaded time. *)
Lemma decode_ignores_info (wld : World) (info : TacitImage.ImgInfo) (time : Z)
    (i : TacitImage.t) :
  TacitImage.decode wld (TacitImage.set_Info info (TacitImage.set_LoadedTime time i))
  = let '(success, bitdepth, j) := TacitImage.decode wld i in
    (success, bitdepth, TacitImage.set_Info info (TacitImage.set_LoadedTime time j)).
Proof.
  destruct i. unfold TacitImage.decode.
  cbn [TacitImage.set_Info TacitImage.set_LoadedTime TacitImage.Filetype TacitImage.Filename
       TacitImage.set_DDSCubemap].
  repeat match goal with
         | |- context [if ?b then _ else _] => destruct b
         | |- context [match ?o with Loaded _ => _ | Failed => _ | Threw => _ end] => destruct o
         end; reflexivity.
Qed.

Lemma convert_ignores_info (wld : World) (info : TacitImage.ImgInfo) (time : Z)
    (i : TacitImage.t) :
  snd (TacitImage.ConvertCubemapToPicture
         (TacitImage.set_Info info (TacitImage.set_LoadedTime time i)))
  = TacitImage.set_Info info
      (TacitImage.set_LoadedTime time (snd (TacitImage.ConvertCubemapToPicture i)))
  /\ snd (TacitImage.ConvertTexture2DToPicture wld
            (TacitImage.set_Info info (TacitImage.set_LoadedTime time i)))
     = TacitImage.set_Info info
         (TacitImage.set_LoadedTime time (snd (TacitImage.ConvertTexture2DToPicture wld i))).
Proof.
  destruct i.
  unfold TacitImage.ConvertCubemapToPicture, TacitImage.ConvertTexture2DToPicture.
  cbn [TacitImage.set_Info TacitImage.set_LoadedTime TacitImage.DDSCubemap
       TacitImage.DDSTexture2D TacitImage.Pictures].
  split; repeat match goal with |- context [if ?b then _ else _] => destruct b end;
    reflexivity.
Qed.

Lemma fillInfo_ignores_info (wld : World) (bitdepth : Z) (info : TacitImage.ImgInfo)
    (time : Z) (i : TacitImage.t) :
  TacitImage.fillInfo wld bitdepth
    (TacitImage.set_Info info (TacitImage.set_LoadedTime time i))
  = TacitImage.fillInfo wld bitdepth i.
Proof. destruct i. reflexivity. Qed.

Lemma Load_ignores_info (IsLoaded : TacitImage.t -> bool) (wld : World)
    (info : TacitImage.ImgInfo) (time : Z) (i : TacitImage.t) :
  IsLoaded i = false ->
  IsLoaded (TacitImage.set_Info info (TacitImage.set_LoadedTime time i)) = false ->
  fst (TacitImage.Load IsLoaded wld i) = true ->
  TacitImage.Load IsLoaded wld (TacitImage.set_Info info (TacitImage.set_LoadedTime time i))
  = TacitImage.Load IsLoaded wld i.
Proof.
  intros Hnot Hnot'. unfold TacitImage.Load. rewrite Hnot, Hnot', decode_ignores_info.
  change (TacitImage.Filetype (TacitImage.set_Info info (TacitImage.set_LoadedTime time i)))
    with (TacitImage.Filetype i).
  destruct (tFileType_eqb (TacitImage.Filetype i) Unknown); [done|].
  destruct (TacitImage.decode wld i) as [[success bitdepth] j].
  destruct success; [|done]. intros _. f_equal.
  destruct (convert_ignores_info wld info time j) as [Hc Ht].
  change (TacitImage.Filetype (TacitImage.set_Info info (TacitImage.set_LoadedTime time j)))
    with (TacitImage.Filetype j).
  change (TacitImage.DDSCubemap (TacitImage.set_Info info (TacitImage.set_LoadedTime time j)))
    with (TacitImage.DDSCubemap j).
  change (TacitImage.DDSTexture2D (TacitImage.set_Info info (TacitImage.set_LoadedTime time j)))
    with (TacitImage.DDSTexture2D j).
  rewrite Hc, Ht.
  repeat match goal with |- context [if ?b then _ else _] => destruct b end;
    by rewrite fillInfo_ignores_info.
Qed.

Lemma LoadKeeps_refl (i : TacitImage.t) : LoadKeeps i i.
Proof. by destruct i. Qed.

Lemma LoadKeeps_trans (i j r : TacitImage.t) : LoadKeeps i j -> LoadKeeps j r -> LoadKeeps i r.
Proof.
  unfold LoadKeeps. destruct i, j, r. cbn. intros Hij Hjr.
  injection Hij as -> -> -> -> -> -> -> -> -> -> -> -> ->.
  by injection Hjr as -> -> -> -> -> -> -> -> -> -> -> -> ->.
Qed.

Lemma decode_keeps (wld : World) (i : TacitImage.t) :
  LoadKeeps i (snd (TacitImage.decode wld i)).
Proof.
  unfold LoadKeeps, TacitImage.decode. destruct i.
  cbn [TacitImage.Filetype TacitImage.Filename TacitImage.set_DDSCubemap].
  repeat match goal with
         | |- context [if ?b then _ else _] => destruct b
         | |- context [match ?o with Loaded _ => _ | Failed => _ | Threw => _ end] => destruct o
         end; reflexivity.
Qed.

Lemma convert_keeps (wld : World) (i : TacitImage.t) :
  LoadKeeps i (snd (TacitImage.ConvertCubemapToPicture i))
  /\ LoadKeeps i (snd (TacitImage.ConvertTexture2DToPicture wld i)).
Proof.
  unfold LoadKeeps, TacitImage.ConvertCubemapToPicture, TacitImage.ConvertTexture2DToPicture.
  destruct i. cbn [TacitImage.DDSCubemap TacitImage.DDSTexture2D TacitImage.Pictures].
  split; repeat match goal with |- context [if ?b then _ else _] => destruct b end;
    reflexivity.
Qed.

Lemma fillInfo_keeps (wld : World) (bitdepth : Z) (i : TacitImage.t) :
  LoadKeeps i (TacitImage.fillInfo wld bitdepth i).
Proof.
  unfold LoadKeeps, TacitImage.fillInfo, TacitImage.CreateAltPictureDDS2DMipmaps.
  destruct i.
  cbn [TacitImage.set_LoadedTime TacitImage.set_Info TacitImage.DDSCubemap
       TacitImage.DDSTexture2D TacitImage.Info TacitImage.Mipmaps].
  repeat match goal with
         | |- context [if ?b then _ else _] => destruct b
         | |- context [let '(_, _) := ?p in _] => destruct p
         end; reflexivity.
Qed.

Lemma Load_keeps (IsLoaded : TacitImage.t -> bool) (wld : World) (i : TacitImage.t) :
  LoadKeeps i (snd (TacitImage.Load IsLoaded wld i)).
Proof.
  unfold TacitImage.Load.
  destruct (IsLoaded i); [by destruct i|].
  destruct (tFileType_eqb (TacitImage.Filetype i) Unknown); [apply LoadKeeps_refl|].
  pose proof (decode_keeps wld i) as Hdec.
  destruct (TacitImage.decode wld i) as [[success bitdepth] j]. cbn [snd] in Hdec.
  destruct (convert_keeps wld j) as [Hc Ht].
  assert (LoadKeeps i
            (if tFileType_eqb (TacitImage.Filetype j) DDS
             then if tCubemap.IsValid (TacitImage.DDSCubemap j)
                  then snd (TacitImage.ConvertCubemapToPicture j)
                  else if tTexture.IsValid (TacitImage.DDSTexture2D j)
                       then snd (TacitImage.ConvertTexture2DToPicture wld j) else j
             else j)) as Hconv.
  { repeat match goal with |- context [if ?b then _ else _] => destruct b end;
      eauto using LoadKeeps_trans. }
  destruct success; cbn [snd]; [|done].
  eapply LoadKeeps_trans; [exact Hconv|apply fillInfo_keeps].
Qed.

(** X5: unloading and loading again is a round trip.  For an aggregate as
    the constructors leave it whose [Load] succeeds, [Load] after [Unload]
    returns what the first [Load] returned: the same pictures, containers,
    alt buffer and info record, and the same result (the files, the decoders
    and the clock answering as before). *)
Theorem reload_after_unload
    (IsLoaded : TacitImage.t -> bool) (wld : World) (i : TacitImage.t)
    (Hfresh : pristine i)
    (Hnot : IsLoaded i = false)
    (Hok : fst (TacitImage.Load IsLoaded wld i) = true)
    (Hloaded : IsLoaded (snd (TacitImage.Load IsLoaded wld i)) = true)
    (Hunloaded :
       IsLoaded (snd (TacitImage.Unload IsLoaded (snd (TacitImage.Load IsLoaded wld i))))
       = false) :
  let emptied := snd (TacitImage.Unload IsLoaded (snd (TacitImage.Load IsLoaded wld i))) in
  TacitImage.Pictures emptied = []
  /\ TacitImage.Load IsLoaded wld emptied = TacitImage.Load IsLoaded wld i.
Proof.
  intros u.
  assert (exists info, u = TacitImage.set_Info info (TacitImage.set_LoadedTime (-1) i))
    as [info Hu].
  { subst u. pose proof (Load_keeps IsLoaded wld i) as Hkeep.
    unfold TacitImage.Unload. rewrite Hloaded. cbn [negb snd].
    destruct (snd (TacitImage.Load IsLoaded wld i)) as
      [fn ft mt sz lt info cube tex pics alt en tp ta rq rn fl th tpic tid].
    destruct Hfresh as ((Hp & Hc & Ht & Ha) & He & Hprim & Halt).
    destruct i. unfold LoadKeeps in Hkeep. cbn in Hkeep, Hp, Hc, Ht, Ha, He, Hprim, Halt.
    injection Hkeep as -> -> -> -> -> -> -> -> -> -> -> -> ->. subst.
    eexists. reflexivity. }
  split.
  - subst u. unfold TacitImage.Unload. by rewrite Hloaded.
  - rewrite Hu. apply Load_ignores_info; [done| |done]. by rewrite <- Hu.
Qed.

Lemma reload_after_unload_witness :
  let i := TacitImage.CreateFrom Sample.world "sky.dds" in
  let loaded := snd (TacitImage.Load TacitImage.IsLoaded Sample.world i) in
  let unloaded := snd (TacitImage.Unload TacitImage.IsLoaded loaded) in
  length (TacitImage.Pictures loaded) = 6%nat
  /\ TacitImage.Pictures unloaded = []
  /\ TacitImage.Load TacitImage.IsLoaded Sample.world unloaded
     = TacitImage.Load TacitImage.IsLoaded Sample.world i.
Proof.
  intros i loaded unloaded.
  assert (pristine i) as Hfresh by (by repeat split).
  split; [reflexivity|].
  exact (reload_after_unload TacitImage.IsLoaded Sample.world i Hfresh
           eq_refl eq_refl eq_refl eq_refl).
Defined.

(** ** The thumbnail pipeline over time *)

Section Pipeline.

Variable IsLoaded : TacitImage.t -> bool.
Variables ThumbWidth ThumbHeight : Z.
Variable lib : Tacent.
Variable wld : World.



(** What the three calls and the worker do to the thumbnail picture and its
    texture name. *)
Lemma RequestThumbnail_thumbnail (numRunning : Z) (i : TacitImage.t) :
  let i' := snd (TacitImage.RequestThumbnail wld numRunning i) in
  TacitImage.ThumbnailPicture i' = TacitImage.ThumbnailPicture i
  /\ TacitImage.TexIDThumbnail i' = TacitImage.TexIDThumbnail i.
Proof.
  unfold TacitImage.RequestThumbnail.
  by repeat match goal with |- context [if ?b then _ else _] => destruct b end.
Qed.

Lemma BindThumbnail_thumbnail (numRunning : Z) (i : TacitImage.t) :
  let i' := snd (TacitImage.BindThumbnail wld numRunning i) in
  TacitImage.ThumbnailPicture i' = TacitImage.ThumbnailPicture i
  /\ (TacitImage.TexIDThumbnail i <> 0 ->
      TacitImage.TexIDThumbnail i' = TacitImage.TexIDThumbnail i).
Proof.
  unfold TacitImage.BindThumbnail.
  destruct (negb (TacitImage.ThumbnailRequested i)); [done|].
  destruct (negb (TacitImage.ThumbnailThreadFlag i)).
  all: cbn [TacitImage.set_thumbState TacitImage.ThumbnailThreadRunning
            TacitImage.ThumbnailPicture TacitImage.TexIDThumbnail].
  all: repeat match goal with |- context [if ?b then _ else _] => destruct b eqn:? end;
    cbn; split; try done.
  all: intros Hne; by apply Z.eqb_neq in Hne; rewrite Hne in *.
Qed.

Lemma UnrequestThumbnail_thumbnail (i : TacitImage.t) :
  let i' := TacitImage.UnrequestThumbnail i in
  TacitImage.ThumbnailPicture i' = TacitImage.ThumbnailPicture i
  /\ TacitImage.TexIDThumbnail i' = TacitImage.TexIDThumbnail i.
Proof.
  unfold TacitImage.UnrequestThumbnail.
  by repeat match goal with |- context [if ?b then _ else _] => destruct b end.
Qed.

Lemma GenerateThumbnail_valid (cacheDir : string) (files files' : gmap string (list Z))
    (i : TacitImage.t) (thumbnail : tPicture.t) :
  tPicture.IsValid (TacitImage.ThumbnailPicture i) = true ->
  TacitImage.GenerateThumbnail IsLoaded ThumbWidth ThumbHeight lib wld cacheDir files i
  = TacitImage.Finished thumbnail files' ->
  thumbnail = TacitImage.ThumbnailPicture i /\ files' = files.
Proof.
  unfold TacitImage.GenerateThumbnail. intros ->. by intros [= <- <-].
Qed.

Lemma step_thumbnail (ev : Event) (p : Process) (n : nat) (pic : tPicture.t) (tex : Z) :
  tPicture.IsValid pic = true ->
  thumbnailOf p n = Some pic ->
  thumbnailOf (step IsLoaded ThumbWidth ThumbHeight lib wld ev p) n = Some pic
  /\ (tex <> 0 -> thumbnailTexOf p n = Some tex ->
      thumbnailTexOf (step IsLoaded ThumbWidth ThumbHeight lib wld ev p) n = Some tex).
Proof.
  intros Hvalid. unfold thumbnailOf, thumbnailTexOf, step. intros Hpic.
  destruct (Aborted p); [done|].
  assert (forall m j numRunning,
            Images p !! m = Some j ->
            forall j',
            TacitImage.ThumbnailPicture j' = TacitImage.ThumbnailPicture j ->
            (TacitImage.TexIDThumbnail j <> 0 ->
             TacitImage.TexIDThumbnail j' = TacitImage.TexIDThumbnail j) ->
            TacitImage.ThumbnailPicture <$> Images (setImage m j' numRunning p) !! n = Some pic
            /\ (tex <> 0 -> TacitImage.TexIDThumbnail <$> Images p !! n = Some tex ->
                TacitImage.TexIDThumbnail <$> Images (setImage m j' numRunning p) !! n
                = Some tex)) as Hset.
  { intros m j numRunning Hj j' Hsame Htex. unfold setImage. cbn [Images].
    destruct (decide (m = n)) as [->|Hne].
    - rewrite list_lookup_insert_eq by (by eapply lookup_lt_Some).
      rewrite Hj in Hpic |- *. cbn in Hpic |- *. split; [congruence|].
      intros Hnz [= Hid]. f_equal. rewrite Htex; congruence.
    - by rewrite list_lookup_insert_ne. }
  destruct ev as [m|m|m|m]; destruct (Images p !! m) as [j|] eqn:Hj; try done.
  - pose proof (RequestThumbnail_thumbnail (ThumbnailNumThreadsRunning p) j) as [H1 H2].
    destruct (TacitImage.RequestThumbnail _ _ _) as [numRunning j'].
    apply (Hset m j); [done|done|]. by intros _.
  - pose proof (BindThumbnail_thumbnail (ThumbnailNumThreadsRunning p) j) as [H1 H2].
    destruct (TacitImage.BindThumbnail _ _ _) as [[handle numRunning] j'].
    by apply (Hset m j).
  - pose proof (UnrequestThumbnail_thumbnail j) as [H1 H2].
    apply (Hset m j); [done|done|]. by intros _.
  - destruct (isExecuting j); [|done].
    destruct (TacitImage.GenerateThumbnail _ _ _ _ _ _ _ _) as [thumbnail files|] eqn:Hgen;
      [|done].
    cbn [Images].
    destruct (decide (m = n)) as [->|Hne]; [|by rewrite list_lookup_insert_ne].
    rewrite list_lookup_insert_eq by (by eapply lookup_lt_Some).
    rewrite Hj in Hpic |- *. cbn in Hpic |- *. injection Hpic as Hpic.
    rewrite <- Hpic in Hvalid.
    destruct (GenerateThumbnail_valid _ _ _ _ _ Hvalid Hgen) as [-> _].
    split; [congruence|]. by intros _ [= <-].
Qed.

End Pipeline.


(** X7: a thumbnail is generated once.  When an aggregate of the process
    holds a valid thumbnail picture, it holds the same picture after any
    further calls and worker completions; and once the picture has a texture
    name, that name stays as well. *)
Theorem thumbnail_is_final
    (IsLoaded : TacitImage.t -> bool) (ThumbWidth ThumbHeight : Z) (lib : Tacent)
    (wld : World) (evs : list Event) (p : Process) (n : nat) (pic : tPicture.t)
    (Hvalid : tPicture.IsValid pic = true)
    (Hpic : thumbnailOf p n = Some pic) :
  let p' := run IsLoaded ThumbWidth ThumbHeight lib wld evs p in
  thumbnailOf p' n = Some pic
  /\ forall tex, tex <> 0 -> thumbnailTexOf p n = Some tex -> thumbnailTexOf p' n = Some tex.
Proof.
  revert p Hpic. induction evs as [|ev evs IH]; intros p Hpic; [done|].
  cbn [run foldl]. fold (run IsLoaded ThumbWidth ThumbHeight lib wld evs).
  pose proof (fun tex => step_thumbnail IsLoaded ThumbWidth ThumbHeight lib wld ev p n pic tex
                           Hvalid Hpic) as Hstep.
  destruct (IH _ (proj1 (Hstep 0))) as [Hpic' Htex'].
  split; [done|].
  intros tex Hnz Htex. apply Htex'; [done|]. by apply (Hstep tex).
Qed.

Lemma thumbnail_is_final_witness :
  let p := Sample.run [CallRequestThumbnail 0; WorkerReturns 0; CallBindThumbnail 0]
             (Sample.start ["photo.tga"]) in
  let p' := Sample.run [CallUnrequestThumbnail 0; CallRequestThumbnail 0; WorkerReturns 0;
                        CallBindThumbnail 0] p in
  let pic := TacitImage.makeThumbnail 4 4 Sample.lib Sample.photo in
  tPicture.IsValid pic = true
  /\ thumbnailOf p 0 = Some pic
  /\ thumbnailOf p' 0 = Some pic
  /\ thumbnailTexOf p' 0 = Some 5.
Proof.
  intros p p' pic.
  assert (tPicture.IsValid pic = true) as Hvalid by reflexivity.
  assert (thumbnailOf p 0 = Some pic) as Hpic by reflexivity.
  pose proof (thumbnail_is_final TacitImage.IsLoaded 4 4 Sample.lib Sample.world
                [CallUnrequestThumbnail 0; CallRequestThumbnail 0; WorkerReturns 0;
                 CallBindThumbnail 0] p 0%nat pic Hvalid Hpic) as [H1 H2].
  split; [exact Hvalid|]. split; [exact Hpic|]. split; [exact H1|].
  apply H2; [discriminate|reflexivity].
Defined.





(** ** Binding *)

Lemma mapM_total {A B : Type} (f : A -> option B) (g : A -> B) (l : list A) :
  (forall x, f x = Some (g x)) -> mapM f l = Some (map g l).
Proof.
  intros Hf. induction l as [|x l IH]; [done|].
  cbn. rewrite Hf. cbn. rewrite IH. done.
Qed.

(** X9: what [BindLayers] uploads.  With the compression extension present,
    a non-empty list of layers produces the five set-up calls on the texture
    name (trilinear minification exactly when there is more than one layer)
    followed by one upload per layer: layer [k] goes to mipmap level [k] with
    its own width and height, but every upload uses the formats of the FIRST
    layer, as a compressed upload exactly when the first layer is block
    compressed, in which case source and destination format coincide.  An
    empty list produces no call at all; without the extension the assertion
    stops the upload of any non-empty list. *)
Theorem BindLayers_uploads (first : tLayer.t) (rest : list tLayer.t) (texID : Z) :
  let layers := first :: rest in
  TacitImage.BindLayers true [] texID = Some []
  /\ TacitImage.BindLayers false layers texID = None
  /\ exists srcFormat srcType dstFormat compressed uploads,
       TacitImage.GetGLFormatInfo true (tLayer.PixelFormat first)
       = Some (srcFormat, srcType, dstFormat, compressed)
       /\ compressed = isBlockCompressed (tLayer.PixelFormat first)
       /\ (compressed = true -> srcFormat = dstFormat)
       /\ TacitImage.BindLayers true layers texID
          = Some (bindSetup texID (length layers) ++ uploads)
       /\ length uploads = length layers
       /\ forall level layer,
            layers !! level = Some layer ->
            uploads !! level
            = Some (if compressed
                    then TacitImage.glCompressedTexImage2D TacitImage.GL_TEXTURE_2D
                           (Z.of_nat level) dstFormat
                           (tLayer.Width layer) (tLayer.Height layer) 0 layer
                    else TacitImage.glTexImage2D TacitImage.GL_TEXTURE_2D
                           (Z.of_nat level) dstFormat
                           (tLayer.Width layer) (tLayer.Height layer) 0
                           srcFormat srcType layer).
Proof.
  intros layers. split; [done|]. split; [done|].
  destruct (TacitImage.GetGLFormatInfo true (tLayer.PixelFormat first))
    as [[[[srcFormat srcType] dstFormat] compressed]|] eqn:Hfmt; [|done].
  set (call := fun '(level, layer) =>
         if compressed
         then TacitImage.glCompressedTexImage2D TacitImage.GL_TEXTURE_2D
                (Z.of_nat level) dstFormat
                (tLayer.Width layer) (tLayer.Height layer) 0 layer
         else TacitImage.glTexImage2D TacitImage.GL_TEXTURE_2D
                (Z.of_nat level) dstFormat
                (tLayer.Width layer) (tLayer.Height layer) 0
                srcFormat srcType layer).
  exists srcFormat, srcType, dstFormat, compressed, (map call (imap pair layers)).
  split; [done|].
  split; [by destruct (tLayer.PixelFormat first); injection Hfmt as <- <- <- <-|].
  split; [by destruct (tLayer.PixelFormat first); injection Hfmt as <- <- <- <-|].
  split; [|split].
  - subst layers. unfold TacitImage.BindLayers.
    rewrite (mapM_total _ call).
    2: { intros [level layer]. unfold TacitImage.uploadLayer. by rewrite Hfmt. }
    cbn [mbind option_bind]. unfold bindSetup. do 3 f_equal.
    cbn [length]. destruct rest; [done|].
    rewrite (proj2 (Z.ltb_lt _ _)) by (cbn [length]; lia). done.
  - by rewrite length_map, length_imap.
  - intros level layer Hl. by rewrite list_lookup_fmap, list_lookup_imap, Hl.
Qed.

(** X10: binding again is cheap and stable.  When [Bind] has answered with a
    texture name other than 0, the next [Bind] answers with the same name,
    leaves the aggregate as it is and issues a single [glBindTexture] on that
    name: nothing is uploaded a second time. *)
Theorem Bind_again
    (IsLoaded : TacitImage.t -> bool) (glew : bool) (wld : World) (i i' : TacitImage.t)
    (texID : Z) (calls : list TacitImage.GLCall)
    (Hbind : TacitImage.Bind IsLoaded glew wld i = Some (texID, i', calls))
    (Hname : texID <> 0) :
  TacitImage.Bind IsLoaded glew wld i'
  = Some (texID, i', [TacitImage.glBindTexture TacitImage.GL_TEXTURE_2D texID]).
Proof.
  revert Hbind. unfold TacitImage.Bind at 1.
  destruct (TacitImage.AltPictureEnabled i && tPicture.IsValid (TacitImage.AltPicture i))
    eqn:Halt.
  - destruct (negb (TacitImage.TexIDAlt i =? 0)) eqn:Hid.
    + intros [= <- <- <-]. unfold TacitImage.Bind. by rewrite Halt, Hid.
    + cbn [TacitImage.set_TexIDs TacitImage.TexIDAlt TacitImage.AltPicture].
      destruct (glGenTextures wld =? 0) eqn:Hgen; [by intros [= <- <- <-]|].
      destruct (TacitImage.BindLayers _ _ _) as [calls'|]; [|done].
      cbn. intros [= <- <- <-]. unfold TacitImage.Bind.
      cbn [TacitImage.AltPictureEnabled TacitImage.AltPicture TacitImage.TexIDAlt
           TacitImage.set_TexIDs].
      by rewrite Halt, Hgen.
  - destruct (negb (TacitImage.TexIDPrimary i =? 0)) eqn:Hid.
    + intros [= <- <- <-]. unfold TacitImage.Bind. by rewrite Halt, Hid.
    + destruct (negb (IsLoaded i)); [by intros [= <- <- <-]|].
      set (j := TacitImage.set_TexIDs (glGenTextures wld) (TacitImage.TexIDAlt i) i).
      change (TacitImage.TexIDPrimary j) with (glGenTextures wld).
      destruct (glGenTextures wld =? 0) eqn:Hgen; [by intros [= <- <- <-]|].
      assert (TacitImage.Bind IsLoaded glew wld j
              = Some (glGenTextures wld, j,
                      [TacitImage.glBindTexture TacitImage.GL_TEXTURE_2D (glGenTextures wld)]))
        as Hagain.
      { unfold TacitImage.Bind.
        change (TacitImage.AltPictureEnabled j) with (TacitImage.AltPictureEnabled i).
        change (TacitImage.AltPicture j) with (TacitImage.AltPicture i).
        change (TacitImage.TexIDPrimary j) with (glGenTextures wld).
        by rewrite Halt, Hgen. }
      repeat match goal with
             | |- context [if ?b then _ else _] => destruct b
             | |- context [match ?o with Some _ => _ | None => _ end] => destruct o
             | |- context [TacitImage.BindLayers ?g ?l ?t] =>
                 destruct (TacitImage.BindLayers g l t)
             end; cbn; try done; intros [= <- <- <-]; done.
Qed.

Lemma Bind_again_witness :
  let i := snd (Sample.load "photo.tga") in
  let i' := TacitImage.set_TexIDs 5 0 i in
  let upload :=
    TacitImage.glTexImage2D TacitImage.GL_TEXTURE_2D 0 TacitImage.GL_RGBA8 4 2 0
      TacitImage.GL_RGBA TacitImage.GL_UNSIGNED_BYTE
      (tLayer.mk R8G8B8A8 4 2 (tPicture.Pixels Sample.photo)) in
  TacitImage.Bind TacitImage.IsLoaded true Sample.world i
  = Some (5, i', bindSetup 5 1 ++ [upload])
  /\ TacitImage.Bind TacitImage.IsLoaded true Sample.world i'
     = Some (5, i', [TacitImage.glBindTexture TacitImage.GL_TEXTURE_2D 5]).
Proof.
  intros i i' upload.
  assert (TacitImage.Bind TacitImage.IsLoaded true Sample.world i
          = Some (5, i', bindSetup 5 1 ++ [upload])) as Hfirst by reflexivity.
  split; [exact Hfirst|].
  exact (Bind_again TacitImage.IsLoaded true Sample.world i i' 5 _ Hfirst ltac:(discriminate)).
Defined.

(** X11: a texture name without an image.  On an aggregate that counts as
    loaded but has no valid picture to show (the alt view off, no name held
    yet), [Bind] generates a texture name, finds nothing to upload and answers
    0, yet keeps the name it generated; the next [Bind] therefore answers with
    that name, although no image was ever specified for it. *)
Theorem Bind_names_texture_without_picture
    (IsLoaded : TacitImage.t -> bool) (glew : bool) (wld : World) (i : TacitImage.t)
    (Hloaded : IsLoaded i = true)
    (Hnoalt : TacitImage.AltPictureEnabled i = false)
    (Hnoname : TacitImage.TexIDPrimary i = 0)
    (Hnopic : forall picture, TacitImage.First i = Some picture ->
                tPicture.IsValid picture = false)
    (Hgen : glGenTextures wld <> 0) :
  let i' := TacitImage.set_TexIDs (glGenTextures wld) (TacitImage.TexIDAlt i) i in
  TacitImage.Bind IsLoaded glew wld i = Some (0, i', [])
  /\ TacitImage.Bind IsLoaded glew wld i'
     = Some (glGenTextures wld, i',
             [TacitImage.glBindTexture TacitImage.GL_TEXTURE_2D (glGenTextures wld)]).
Proof.
  intros i'. apply Z.eqb_neq in Hgen. unfold TacitImage.Bind.
  change (TacitImage.AltPictureEnabled i') with (TacitImage.AltPictureEnabled i).
  change (TacitImage.TexIDPrimary i') with (glGenTextures wld).
  fold i'. change (TacitImage.AltPictureEnabled i') with (TacitImage.AltPictureEnabled i).
  change (TacitImage.TexIDPrimary i') with (glGenTextures wld).
  change (TacitImage.First i') with (TacitImage.First i).
  rewrite Hnoalt, Hnoname, Hloaded, Hgen. cbn [andb negb Z.eqb].
  split; [|done].
  destruct (TacitImage.First i) as [picture|]; [|done].
  by rewrite (Hnopic picture).
Qed.

Lemma Bind_names_texture_without_picture_witness :
  let i := snd (Sample.load "missing.tga") in
  let i' := TacitImage.set_TexIDs 5 0 i in
  fst (Sample.load "missing.tga") = false
  /\ TacitImage.IsLoaded i = true
  /\ TacitImage.Bind TacitImage.IsLoaded true Sample.world i = Some (0, i', [])
  /\ TacitImage.Bind TacitImage.IsLoaded true Sample.world i'
     = Some (5, i', [TacitImage.glBindTexture TacitImage.GL_TEXTURE_2D 5]).
Proof.
  intros i i'.
  split; [reflexivity|]. split; [reflexivity|].
  apply (Bind_names_texture_without_picture TacitImage.IsLoaded true Sample.world i);
    try reflexivity; [|discriminate].
  by intros picture [= <-].
Defined.

(** ** Machine queries *)

Lemma polls_cached (reports : list Z) (numCores : Z) :
  0 < numCores -> polls reports numCores = replicate (length reports) numCores.
Proof.
  intros Hpos. induction reports as [|dw reports IH]; [done|].
  change (polls (dw :: reports) numCores)
    with (let '(result, numCores) := tSystem.tGetNumCores dw numCores in
          result :: polls reports numCores).
  cbn [length replicate]. unfold tSystem.tGetNumCores.
  rewrite (proj2 (Z.ltb_lt _ _)) by done. by rewrite IH.
Qed.

(** X12: [tGetNumCores] caches its first positive answer.  When the first
    call finds a processor count below [2^31], it answers that count, or 1
    for a count of 0, and every later call in the process gives the same
    answer whatever the system reports by then; a count of all ones is
    answered by 1 as well.  A count of [2^31] or more that is not all ones is
    not recognised: it comes back as a negative number and is not cached. *)
Theorem tGetNumCores_cached (dw : Z) (later : list Z) :
  (0 <= dw < 2 ^ 31 ->
   polls (dw :: later) 0 = replicate (S (length later)) (Z.max dw 1))
  /\ polls (2 ^ 32 - 1 :: later) 0 = replicate (S (length later)) 1
  /\ (2 ^ 31 <= dw < 2 ^ 32 - 1 ->
      tSystem.tGetNumCores dw 0 = (dw - 2 ^ 32, dw - 2 ^ 32)
      /\ forall dw', tSystem.tGetNumCores dw' (dw - 2 ^ 32) = tSystem.tGetNumCores dw' 0).
Proof.
  split; [|split].
  - intros Hdw.
    change (polls (dw :: later) 0)
      with (let '(result, numCores) := tSystem.tGetNumCores dw 0 in
            result :: polls later numCores).
    cbn [length replicate]. unfold tSystem.tGetNumCores.
    cbn [Z.ltb Z.compare].
    change (tSystem.toDWORD (-1)) with (2 ^ 32 - 1).
    destruct (Z.eqb_spec dw 0) as [->|Hnz]; cbn [orb].
    + by rewrite polls_cached.
    + rewrite (proj2 (Z.eqb_neq _ _)) by lia.
      assert (tSystem.toInt dw = dw) as ->.
      { unfold tSystem.toInt. rewrite Z.mod_small by lia. lia. }
      rewrite polls_cached by lia. by rewrite Z.max_l by lia.
  - change (polls (2 ^ 32 - 1 :: later) 0) with (1 :: polls later 1).
    by rewrite polls_cached.
  - intros Hdw.
    assert (tSystem.toInt dw = dw - 2 ^ 32) as Hint.
    { unfold tSystem.toInt.
      replace (dw + 2 ^ 31) with (dw - 2 ^ 31 + 1 * 2 ^ 32) by lia.
      rewrite Z.mod_add by lia. rewrite Z.mod_small by lia. lia. }
    split.
    + unfold tSystem.tGetNumCores. cbn [Z.ltb Z.compare].
      change (tSystem.toDWORD (-1)) with (2 ^ 32 - 1).
      rewrite !(proj2 (Z.eqb_neq _ _)) by lia. cbn [orb]. by rewrite Hint.
    + intros dw'. unfold tSystem.tGetNumCores.
      by rewrite (proj2 (Z.ltb_ge _ _)) by lia.
Qed.

Lemma tGetNumCores_cached_witness :
  polls [8; 0; 64] 0 = [8; 8; 8]
  /\ polls [0; 16] 0 = [1; 1]
  /\ tSystem.tGetNumCores (2 ^ 31) 0 = (- 2 ^ 31, - 2 ^ 31).
Proof.
  destruct (tGetNumCores_cached 8 [0; 64]) as (H8 & _ & _).
  destruct (tGetNumCores_cached 0 [16]) as (H0 & _ & _).
  destruct (tGetNumCores_cached (2 ^ 31) []) as (_ & _ & Hbig).
  split; [exact (H8 ltac:(lia))|]. split; [exact (H0 ltac:(lia))|].
  exact (proj1 (Hbig ltac:(lia))).
Defined.

Lemma land_bit (features : Z) (n : Z) :
  0 <= n -> negb (Z.land features (1 ≪ n) =? 0) = Z.testbit features n.
Proof.
  intros Hn. rewrite Z.shiftl_1_l.
  destruct (Z.testbit features n) eqn:Hbit.
  - apply negb_true_iff, Z.eqb_neq. intros Hz.
    assert (Z.testbit (Z.land features (2 ^ n)) n = true) as Hset
      by (by rewrite Z.land_spec, Hbit, Z.pow2_bits_true).
    rewrite Hz, Z.bits_0 in Hset. done.
  - apply negb_false_iff, Z.eqb_eq, Z.bits_inj'. intros m Hm.
    rewrite Z.land_spec, Z.bits_0.
    destruct (decide (m = n)) as [->|Hne]; [by rewrite Hbit|].
    by rewrite Z.pow2_bits_false, andb_false_r by lia.
Qed.

(** X13: [tSupportsSSE] and [tSupportsSSE2] answer bit 25 and bit 26 of the
    feature word, and nothing else: two feature words that agree on that bit
    get the same answer. *)
Theorem tSupportsSSE_bits (features : Z) :
  tSystem.tSupportsSSE features = Z.testbit features 25
  /\ tSystem.tSupportsSSE2 features = Z.testbit features 26.
Proof.
  unfold tSystem.tSupportsSSE, tSystem.tSupportsSSE2.
  rewrite !land_bit by lia.
  by destruct (Z.testbit features 25), (Z.testbit features 26).
Qed.

(** ** The log window *)

Lemma nlOffsets_app (base : Z) (a b : list Ascii.ascii) :
  nlOffsets base (a ++ b) = nlOffsets base a ++ nlOffsets (base + Z.of_nat (length a)) b.
Proof.
  revert base. induction a as [|c a IH]; intros base.
  - cbn. by rewrite Z.add_0_r.
  - cbn [app nlOffsets length]. rewrite IH.
    replace (base + 1 + Z.of_nat (length a)) with (base + Z.of_nat (S (length a))) by lia.
    by destruct (bool_decide _).
Qed.

(** The loop of [AddLog] appends the offsets of the new text. *)
Lemma AddLog_loop (buf pre text : list Ascii.ascii) (offsets : list Z) :
  buf = pre ++ text ->
  foldl (fun offsets old_size =>
           if bool_decide (buf !! Z.to_nat old_size = Some TextureViewerLog.newline)
           then offsets ++ [old_size + 1]
           else offsets)
        offsets (seqZ (Z.of_nat (length pre)) (Z.of_nat (length text)))
  = offsets ++ nlOffsets (Z.of_nat (length pre)) text.
Proof.
  revert pre offsets. induction text as [|c text IH]; intros pre offsets Hbuf.
  - cbn. by rewrite app_nil_r.
  - cbn [length]. rewrite Nat2Z.inj_succ, seqZ_cons by lia. cbn [foldl nlOffsets].
    rewrite Z.pred_succ.
    replace (Z.succ (Z.of_nat (length pre))) with (Z.of_nat (length (pre ++ [c])))
      by (rewrite length_app; cbn; lia).
    rewrite (IH (pre ++ [c])) by (by rewrite <- app_assoc).
    rewrite Nat2Z.id, Hbuf, list_lookup_middle by done.
    replace (Z.of_nat (length (pre ++ [c]))) with (Z.of_nat (length pre) + 1)
      by (rewrite length_app; cbn; lia).
    case_bool_decide as Hc.
    + injection Hc as ->. rewrite bool_decide_true by done. by rewrite <- app_assoc.
    + rewrite bool_decide_false by congruence. done.
Qed.

Lemma AddLog_offsets (text : list Ascii.ascii) (log : TextureViewerLog.t) :
  TextureViewerLog.LineOffsets log = 0 :: nlOffsets 0 (TextureViewerLog.Buf log) ->
  TextureViewerLog.LineOffsets (TextureViewerLog.AddLog text log)
  = 0 :: nlOffsets 0 (TextureViewerLog.Buf (TextureViewerLog.AddLog text log)).
Proof.
  intros Hinv. unfold TextureViewerLog.AddLog.
  cbn [TextureViewerLog.LineOffsets TextureViewerLog.Buf].
  rewrite length_app, Nat2Z.inj_add.
  replace (Z.of_nat (length (TextureViewerLog.Buf log)) + Z.of_nat (length text)
           - Z.of_nat (length (TextureViewerLog.Buf log)))
    with (Z.of_nat (length text)) by lia.
  rewrite (AddLog_loop _ (TextureViewerLog.Buf log) text) by done.
  by rewrite Hinv, nlOffsets_app.
Qed.

Lemma line_shift (buf : list Ascii.ascii) (o : Z) (offsets : list Z) (b : bool) (k : nat) :
  map (TextureViewerLog.line (TextureViewerLog.mk buf (o :: offsets) b)) (seq 1 k)
  = map (TextureViewerLog.line (TextureViewerLog.mk buf offsets b)) (seq 0 k).
Proof.
  rewrite <- fmap_S_seq, <- list_fmap_compose. apply list_fmap_ext. intros _ n _.
  unfold compose, TextureViewerLog.line.
  cbn [TextureViewerLog.LineOffsets TextureViewerLog.Buf length].
  change ((o :: offsets) !! S n) with (offsets !! n).
  change ((o :: offsets) !! (S n + 1)%nat) with (offsets !! (n + 1)%nat).
  by rewrite (bool_decide_ext (S n + 1 < S (length offsets))%nat
                (n + 1 < length offsets)%nat) by lia.
Qed.

Lemma lines_slices (buf : list Ascii.ascii) (o : Z) (offsets : list Z) (b : bool) :
  map (TextureViewerLog.line (TextureViewerLog.mk buf (o :: offsets) b))
      (seq 0 (S (length offsets)))
  = slices buf o offsets.
Proof.
  revert o. induction offsets as [|o' offsets IH]; intros o.
  - cbn [length seq map slices]. unfold TextureViewerLog.line.
    cbn [TextureViewerLog.LineOffsets TextureViewerLog.Buf length lookup list_lookup default
         Nat.add bool_decide decide_rel].
    rewrite bool_decide_false by (cbn; lia).
    rewrite take_ge; [done|]. rewrite length_drop. lia.
  - change (seq 0 (S (length (o' :: offsets)))) with (0%nat :: seq 1 (S (length offsets))).
    cbn [map slices]. rewrite line_shift, IH. f_equal.
Qed.

Lemma splitLines_cons (s : list Ascii.ascii) : exists l ls, splitLines s = l :: ls.
Proof.
  induction s as [|c s (l & ls & IH)]; [by eexists _, _|].
  cbn. rewrite IH. destruct (bool_decide _); by eexists _, _.
Qed.

Lemma slices_splitLines (pre s : list Ascii.ascii) (start : Z) :
  0 <= start <= Z.of_nat (length pre) ->
  slices (pre ++ s) start (nlOffsets (Z.of_nat (length pre)) s)
  = prepend (drop (Z.to_nat start) pre) (splitLines s).
Proof.
  revert pre start. induction s as [|c s IH]; intros pre start Hstart.
  - cbn. by rewrite !app_nil_r.
  - cbn [nlOffsets splitLines].
    assert (Z.of_nat (length pre) + 1 = Z.of_nat (length (pre ++ [c]))) as Hlen
      by (rewrite length_app; cbn; lia).
    assert (pre ++ c :: s = (pre ++ [c]) ++ s) as Hbuf by (by rewrite <- app_assoc).
    case_bool_decide as Hc.
    + cbn [slices prepend]. rewrite Hlen, Hbuf.
      rewrite (IH (pre ++ [c]) (Z.of_nat (length (pre ++ [c])))) by lia.
      rewrite Nat2Z.id, drop_all. 
      destruct (splitLines_cons s) as (l & ls & ->). cbn [prepend app].
      f_equal. rewrite <- Hbuf, <- Hlen, app_nil_r.
      rewrite drop_app_le by lia.
      rewrite take_app_le by (rewrite length_drop; lia).
      rewrite take_ge; [done|]. rewrite length_drop. lia.
    + rewrite Hlen, Hbuf. rewrite (IH (pre ++ [c]) start) by lia.
      rewrite drop_app_le by lia.
      destruct (splitLines_cons s) as (l & ls & ->). cbn [prepend].
      by rewrite <- app_assoc.
Qed.

Lemma splitLines_no_newline (s : list Ascii.ascii) :
  Forall (fun l => TextureViewerLog.newline ∉ l) (splitLines s).
Proof.
  induction s as [|c s IH]; cbn [splitLines].
  - repeat constructor. by intros ?%elem_of_nil.
  - case_bool_decide as Hc.
    + constructor; [by intros ?%elem_of_nil|done].
    + assert (forall l, TextureViewerLog.newline ∉ l -> TextureViewerLog.newline ∉ c :: l)
        as Hcons by (intros l Hl [Heq|?]%elem_of_cons; [by subst|done]).
      destruct (splitLines s) as [|l ls].
      * constructor; [|done]. apply Hcons. by intros ?%elem_of_nil.
      * apply Forall_cons in IH as [Hl Hls]. constructor; [by apply Hcons|done].
Qed.

Lemma log_offsets (ops : list LogOp) :
  let log := foldl applyLogOp TextureViewerLog.Create ops in
  TextureViewerLog.LineOffsets log = 0 :: nlOffsets 0 (TextureViewerLog.Buf log).
Proof.
  induction ops as [|op ops IH] using rev_ind; [done|].
  rewrite foldl_app. cbn [foldl]. destruct op as [text|]; [|done].
  by apply AddLog_offsets.
Qed.

(** X14: the log window shows the text cut at its newlines.  After any
    sequence of [AddLog] calls and presses of Clear, the line offsets are
    those of the buffer: the lines that [Draw] cuts out of the buffer are
    exactly the lines of the text appended since the last Clear, split at the
    newline characters, none of them containing a newline; with a filter,
    [Draw] shows the lines that pass it, and without one the clipper steps
    through these lines. *)
Theorem log_lines_split_at_newlines (ops : list LogOp) :
  let log := foldl applyLogOp TextureViewerLog.Create ops in
  let Size := length (TextureViewerLog.LineOffsets log) in
  map (TextureViewerLog.line log) (seq 0 Size) = splitLines (TextureViewerLog.Buf log)
  /\ Forall (fun l => TextureViewerLog.newline ∉ l)
       (map (TextureViewerLog.line log) (seq 0 Size))
  /\ (forall passFilter clipper,
        snd (TextureViewerLog.Draw false (Some passFilter) clipper log)
        = List.filter passFilter (splitLines (TextureViewerLog.Buf log)))
  /\ snd (TextureViewerLog.Draw false None [(0%nat, Size)] log)
     = splitLines (TextureViewerLog.Buf log).
Proof.
  intros log Size.
  assert (map (TextureViewerLog.line log) (seq 0 Size)
          = splitLines (TextureViewerLog.Buf log)) as Hlines.
  { subst Size. pose proof (log_offsets ops) as Hoff. fold log in Hoff.
    destruct log as [buf offsets b]. cbn [TextureViewerLog.LineOffsets TextureViewerLog.Buf] in *.
    rewrite Hoff. cbn [length]. rewrite lines_slices.
    pose proof (slices_splitLines [] buf 0 ltac:(cbn; lia)) as Hsl.
    change (slices buf 0 (nlOffsets 0 buf) = prepend [] (splitLines buf)) in Hsl.
    rewrite Hsl.
    by destruct (splitLines_cons buf) as (l & ls & ->). }
  split; [done|]. split; [rewrite Hlines; apply splitLines_no_newline|]. split.
  - intros passFilter clipper. unfold TextureViewerLog.Draw. cbn [snd].
    fold Size. by rewrite Hlines.
  - unfold TextureViewerLog.Draw. cbn [snd flat_map]. rewrite Nat.sub_0_r, app_nil_r. done.
Qed.
